(** * Character generation service: record store, prompt synthesis and
      the image-generation workflow.

    A shallow embedding of
      - app/models/character.py
      - app/core/config.py
      - app/db/file_storage.py
      - app/services/image_generator.py
      - app/api/endpoints/characters.py
    Python objects that are mutated in place are threaded explicitly, the
    process' files and the calls to the outside world live in a [World]
    that a small state-and-exception monad passes along, and everything the
    outside world answers during one request is collected in an [Env]. *)

From Stdlib Require Import ZArith Lia.
From Stdlib Require Import Sorted.
From stdpp Require Import base tactics option list strings pretty.

Local Open Scope Z_scope.
Local Open Scope string_scope.
Local Open Scope list_scope.

(** ** Library types

    [uuid.UUID] and pydantic's (de)serialisation are library code.  They
    are used through the interface below: [uuid_str] is [str(u)],
    [uuid_parse] is the constructor [UUID(k)] ([None] when it raises
    [ValueError]), [model_dump] is [c.model_dump(mode='json')] and
    [model_validate] is [Character.model_validate(v)] ([None] when it
    raises).  The two laws are the round trips these libraries provide.

    [model_validate] is the validation of an entry at one read.  It is a
    function of the entry for every entry that carries [id], [created_at]
    and [updated_at], as all entries that [_write_storage] writes do
    ([model_dump] writes every field).  For an entry put in the file from
    outside that lacks one of them, pydantic fills the default
    ([uuid4()], [datetime.now()]) anew at each validation; the statements
    that relate what two reads return for records an operation does not
    touch are therefore stated for a file that [_write_storage] wrote. *)

(** A [datetime] is offset-naive (what [datetime.now()] returns, and what
    the program therefore writes) or offset-aware (which only a storage
    file edited from outside can hold): [Naive t] is the wall-clock time
    [t], [Aware utc offset] the instant [utc] with its UTC offset, both in
    microseconds. *)
Inductive datetime :=
| Naive (t : Z)
| Aware (utc : Z) (offset : Z).

Coercion Naive : Z >-> datetime.

Definition is_aware (d : datetime) : bool :=
  match d with Naive _ => false | Aware _ _ => true end.

(** The value by which two datetimes of the same kind are ordered. *)
Definition datetime_key (d : datetime) : Z :=
  match d with Naive t => t | Aware utc _ => utc end.

(** [bool(d)] for a [datetime]: always true. *)
Definition datetime_truthy (d : datetime) : bool := true.

Class UuidLib := {
  UUID : Type;
  UUID_eq_dec :: EqDecision UUID;
  uuid_str : UUID -> string;
  uuid_parse : string -> option UUID;
  uuid_parse_str : forall u, uuid_parse (uuid_str u) = Some u;
}.

(** ** app/models/character.py *)

Record CharacterCreate := {
  cc_description : string;
  cc_name : option string;
}.

Record ImageVariation := {
  image_path : string;
  pose : option string;
  expression : option string;
  setting : option string;
  generated_at : datetime;
}.

Section Model.
Context `{UuidLib}.

Record Character := {
  description : string;
  name : option string;
  id : UUID;
  created_at : datetime;
  updated_at : datetime;
  base_image_path : option string;
  image_seed : option Z;
  variations : list ImageVariation;
}.

Definition set_created_at (d : datetime) (c : Character) : Character :=
  {| description := description c; name := name c; id := id c;
     created_at := d; updated_at := updated_at c;
     base_image_path := base_image_path c; image_seed := image_seed c;
     variations := variations c |}.

Definition set_updated_at (d : datetime) (c : Character) : Character :=
  {| description := description c; name := name c; id := id c;
     created_at := created_at c; updated_at := d;
     base_image_path := base_image_path c; image_seed := image_seed c;
     variations := variations c |}.

Definition set_base_image_path (p : option string) (c : Character) : Character :=
  {| description := description c; name := name c; id := id c;
     created_at := created_at c; updated_at := updated_at c;
     base_image_path := p; image_seed := image_seed c;
     variations := variations c |}.

Definition set_image_seed (s : option Z) (c : Character) : Character :=
  {| description := description c; name := name c; id := id c;
     created_at := created_at c; updated_at := updated_at c;
     base_image_path := base_image_path c; image_seed := s;
     variations := variations c |}.

(** [character.variations.append(v)] *)
Definition variations_append (v : ImageVariation) (c : Character) : Character :=
  {| description := description c; name := name c; id := id c;
     created_at := created_at c; updated_at := updated_at c;
     base_image_path := base_image_path c; image_seed := image_seed c;
     variations := variations c ++ [v] |}.

End Model.

Class Pydantic `{UuidLib} := {
  json : Type;
  model_dump : Character -> json;
  model_validate : json -> option Character;
  model_validate_dump : forall c, model_validate (model_dump c) = Some c;
}.

(** ** Python dictionaries

    A [dict] keeps its keys in insertion order; assigning to a key that is
    present replaces the value where it stands. *)

Module PyDict.
Section PyDict.
Context {K V : Type} `{EqDecision K}.

Definition t := list (K * V).

Fixpoint get (k : K) (d : list (K * V)) : option V :=
  match d with
  | [] => None
  | (k', v) :: d' => if decide (k = k') then Some v else get k d'
  end.

Definition contains (k : K) (d : list (K * V)) : bool :=
  match get k d with Some _ => true | None => false end.

Fixpoint set (k : K) (v : V) (d : list (K * V)) : list (K * V) :=
  match d with
  | [] => [(k, v)]
  | (k', v') :: d' =>
      if decide (k = k') then (k, v) :: d' else (k', v') :: set k v d'
  end.

Fixpoint del (k : K) (d : list (K * V)) : list (K * V) :=
  match d with
  | [] => []
  | (k', v') :: d' =>
      if decide (k = k') then del k d' else (k', v') :: del k d'
  end.

Definition values (d : list (K * V)) : list V := map snd d.
Definition keys (d : list (K * V)) : list K := map fst d.

(** [bool(d)] *)
Definition truthy (d : list (K * V)) : bool :=
  match d with [] => false | _ => true end.

End PyDict.
End PyDict.

(** ** Exceptions and the handler monad *)

Inductive exn :=
| HTTPException (status_code : Z) (detail : string)
| TypeError (msg : string)
| UnboundLocalError (var : string)
| IndexError
| AttributeError
| UnicodeDecodeError
| OSError                           (* IOError is the same class *)
| HTTPStatusError (status : Z) (text : string)
| RequestError
| BackendError (msg : string).

Inductive res (A : Type) :=
| Ok (a : A)
| Raise (e : exn).
Arguments Ok {A} a.
Arguments Raise {A} e.

(** The text Python's [str(e)] gives for the exceptions whose message the
    code inspects. *)
Definition exn_str (e : exn) : string :=
  match e with
  | TypeError msg => msg
  | BackendError msg => msg
  | HTTPException _ detail => detail
  | _ => ""
  end.

Definition is_TypeError (e : exn) : bool :=
  match e with TypeError _ => true | _ => false end.

(** ** Files *)

Definition path := list string.
Definition bytes := list Byte.byte.

(** The image tree below the working directory. *)
Record FS := {
  dirs : list path;
  files : list (path * bytes);
}.

Fixpoint is_prefix (p q : path) : bool :=
  match p, q with
  | [], _ => true
  | a :: p', b :: q' => if decide (a = b) then is_prefix p' q' else false
  | _ :: _, [] => false
  end.

Definition path_in (p : path) (l : list path) : bool :=
  existsb (fun q => bool_decide (p = q)) l.

(** [os.path.exists(p)] *)
Definition path_exists (p : path) (fs : FS) : bool :=
  path_in p (dirs fs) || path_in p (map fst (files fs)).

(** The non-empty prefixes of [p], shortest first. *)
Fixpoint ancestors (p : path) : list path :=
  match p with
  | [] => []
  | a :: p' => [a] :: map (cons a) (ancestors p')
  end.

(** [os.makedirs(p, exist_ok=True)] *)
Definition makedirs (p : path) (fs : FS) : FS :=
  {| dirs := fold_left (fun ds q => if path_in q ds then ds else ds ++ [q])
                       (ancestors p) (dirs fs);
     files := files fs |}.

(** [open(p, "wb").write(data)] *)
Definition write_file (p : path) (data : bytes) (fs : FS) : FS :=
  {| dirs := dirs fs; files := PyDict.set p data (files fs) |}.

(** [shutil.rmtree(p)] *)
Definition rmtree (p : path) (fs : FS) : FS :=
  {| dirs := filter (fun q => negb (is_prefix p q)) (dirs fs);
     files := filter (fun qf => negb (is_prefix p (fst qf))) (files fs) |}.

(** What is left when [shutil.rmtree(p)] raises after it has removed the
    paths below [p] that [removed] holds of. *)
Definition rmtree_partly (removed : path -> bool) (p : path) (fs : FS) : FS :=
  {| dirs := filter (fun q => negb (is_prefix p q && removed q)) (dirs fs);
     files := filter (fun qf => negb (is_prefix p (fst qf) && removed (fst qf)))
                     (files fs) |}.

(** [os.path.join] of the components, with ['/'] as separator. *)
Fixpoint join_path (p : path) : string :=
  match p with
  | [] => ""
  | [a] => a
  | a :: p' => a +:+ "/" +:+ join_path p'
  end.

Fixpoint strip_common (p start : path) : path * path :=
  match p, start with
  | a :: p', b :: s' => if decide (a = b) then strip_common p' s' else (p, start)
  | _, _ => (p, start)
  end.

(** [os.path.relpath(p, start)] *)
Definition relpath (p start : path) : path :=
  let '(rest, up) := strip_common p start in
  match map (fun _ => "..") up ++ rest with
  | [] => ["."]
  | r => r
  end.

(** ** app/core/config.py *)

Definition STATIC_FILES_DIR : path := ["static"].
Definition IMAGE_STORAGE_PATH : path := STATIC_FILES_DIR ++ ["images"].

(** ** The generation backend and the download client *)

(** The keyword arguments of [client.images.generate]; [req_seed = None]
    is a call without the [seed] keyword. *)
Record Request := {
  req_model : string;
  req_prompt : string;
  req_size : string;
  req_quality : string;
  req_n : Z;
  req_seed : option Z;
}.

(** One entry of [response.data].  [img_seed] is [None] when the entry has
    no [seed] attribute or the attribute is [None]. *)
Record Image := {
  img_url : option string;
  img_seed : option Z;
}.

Record ImagesResponse := {
  data : list Image;
}.

(** Calls that leave the process. *)
Inductive event :=
| ImagesGenerate (r : Request)
| HttpGet (url : string).

(** How a write that fails has failed: [open] raised and the file is as it
    was, or the file was opened, hence created or emptied, and the write
    raised after [written] bytes. *)
Inductive write_fault :=
| OpenFails
| WriteFails (written : nat).

(** ** The process' state *)

Section Service.
Context `{HU : UuidLib} `{HP : !Pydantic}.

(** What [characters_db.json] holds, as [_read_storage] sees it. *)
Inductive StorageFile :=
| FileMissing                       (* os.path.exists is false *)
| FileUnreadable                    (* open raises IOError *)
| FileUndecodable                   (* reading raises UnicodeDecodeError *)
| FileNotJson                       (* json.load raises JSONDecodeError *)
| FileJsonOther                     (* valid JSON, but not an object *)
| FileJsonObject (items : list (string * json)).

Record World := {
  storage : StorageFile;
  images : FS;
  calls : list event;
}.

Definition set_storage (s : StorageFile) (w : World) : World :=
  {| storage := s; images := images w; calls := calls w |}.

Definition set_images (fs : FS) (w : World) : World :=
  {| storage := storage w; images := fs; calls := calls w |}.

Definition add_call (e : event) (w : World) : World :=
  {| storage := storage w; images := images w; calls := calls w ++ [e] |}.

(** What the outside world answers during one request.  Each
    [datetime.now()] call site runs at most once per request and has its
    own field. *)
Record Env := {
  images_generate : Request -> res ImagesResponse;
  http_get : string -> res bytes;
  randint : Z;                      (* random.randint(1, 2147483647) *)
  uuid4 : UUID;
  now_created_at : datetime;        (* default of Character.created_at *)
  now_updated_at : datetime;        (* default of Character.updated_at *)
  now_generated_at : datetime;      (* default of ImageVariation.generated_at *)
  now_timestamp : string;           (* datetime.now().strftime('%Y%m%d%H%M%S%f') *)
  now_store : datetime;             (* datetime.now() in save and update *)
  storage_write_ok : bool;          (* the with block of _write_storage completes *)
  makedirs_ok : bool;
  image_write_ok : bool;            (* the with block writing the image completes *)
  rmtree_ok : bool;
  storage_write_fault : write_fault;  (* how, when storage_write_ok is false *)
  image_write_fault : write_fault;    (* how, when image_write_ok is false *)
  rmtree_removed : path -> bool;      (* what a failing rmtree had removed *)
}.

Definition M (A : Type) : Type := World -> res A * World.

Definition ret {A} (a : A) : M A := fun w => (Ok a, w).

Definition raise {A} (e : exn) : M A := fun w => (Raise e, w).

Definition bind {A B} (m : M A) (k : A -> M B) : M B :=
  fun w => match m w with
           | (Ok a, w') => k a w'
           | (Raise e, w') => (Raise e, w')
           end.

(** [try: m  except Exception as e: h e] *)
Definition try_except {A} (m : M A) (h : exn -> M A) : M A :=
  fun w => match m w with
           | (Ok a, w') => (Ok a, w')
           | (Raise e, w') => h e w'
           end.

Definition get_world : M World := fun w => (Ok w, w).
Definition modify (f : World -> World) : M unit := fun w => (Ok tt, f w).

#[local] Instance M_ret : MRet M := @ret.
#[local] Instance M_bind : MBind M := fun A B k m => bind m k.

Variable env : Env.

(** ** app/db/file_storage.py *)

(** The loop body of [_read_storage]: an entry whose key or value does not
    parse is skipped. *)
Definition read_entry (characters : list (UUID * Character)) (kv : string * json)
  : list (UUID * Character) :=
  match model_validate (snd kv), uuid_parse (fst kv) with
  | Some c, Some u => PyDict.set u c characters
  | _, _ => characters
  end.

Definition _read_storage : M (list (UUID * Character)) :=
  w ← get_world;
  match storage w with
  | FileMissing => ret []
  | FileUnreadable => ret []
  | FileNotJson => ret []
  | FileUndecodable => raise UnicodeDecodeError
  | FileJsonOther => raise AttributeError
  | FileJsonObject items => ret (fold_left read_entry items [])
  end.

(** [{str(k): v.model_dump(mode='json') for k, v in characters.items()}] *)
Definition serialize (characters : list (UUID * Character)) : list (string * json) :=
  map (fun kv => (uuid_str (fst kv), model_dump (snd kv))) characters.

(** [open(STORAGE_FILE, "w")] and [json.dump] run under the same
    [except IOError].  When [open] raises, the file keeps its content; when
    the write raises after it, the file has been emptied and holds at most
    the beginning of the text, which is not JSON. *)
Definition _write_storage (characters : list (UUID * Character)) : M unit :=
  try_except
    (if storage_write_ok env then
       let serialized := serialize characters in
       modify (set_storage (FileJsonObject serialized))
     else
       match storage_write_fault env with
       | OpenFails => raise OSError
       | WriteFails _ => modify (set_storage FileNotJson) ;; raise OSError
       end)
    (fun e => match e with
              | OSError => raise (HTTPException 500 "Failed to save character data.")
              | _ => raise e
              end).

Definition save_character (character : Character) : M Character :=
  characters ← _read_storage;
  let now := now_store env in
  let character :=
    if negb (datetime_truthy (created_at character))
    then set_created_at now character else character in
  let character := set_updated_at now character in
  let characters := PyDict.set (id character) character characters in
  _write_storage characters ;;
  ret character.

Definition get_character (character_id : UUID) : M (option Character) :=
  characters ← _read_storage;
  ret (PyDict.get character_id characters).

Fixpoint insert_desc (c : Character) (l : list Character) : list Character :=
  match l with
  | [] => [c]
  | y :: l' =>
      if (datetime_key (created_at y) <? datetime_key (created_at c))%Z
      then c :: y :: l'
      else y :: insert_desc c l'
  end.

(** The order [sorted(l, key=lambda c: c.created_at, reverse=True)] gives
    when its keys can be compared: stable, newest first. *)
Definition sorted_desc (l : list Character) : list Character :=
  fold_left (fun acc c => insert_desc c acc) l [].

(** The keys of a sort can be compared with one another: Python orders two
    naive or two aware datetimes and raises [TypeError] on a naive and an
    aware one, and a sort of keys of both kinds meets such a pair. *)
Definition comparable (l : list Character) : bool :=
  forallb (fun c => is_aware (created_at c)) l ||
  forallb (fun c => negb (is_aware (created_at c))) l.

Definition get_all_characters : M (list Character) :=
  characters ← _read_storage;
  let values := PyDict.values characters in
  if comparable values then ret (sorted_desc values)
  else raise (TypeError "can't compare offset-naive and offset-aware datetimes").

Definition update_character (character : Character) : M (option Character) :=
  characters ← _read_storage;
  if negb (PyDict.contains (id character) characters) then ret None
  else
    let character := set_updated_at (now_store env) character in
    let characters := PyDict.set (id character) character characters in
    _write_storage characters ;;
    ret (Some character).

(** A [shutil.rmtree] that raises [OSError] may have removed part of the
    tree before; the error is logged and the deletion goes on. *)
Definition delete_character (character_id : UUID) : M bool :=
  characters ← _read_storage;
  if negb (PyDict.contains character_id characters) then ret false
  else
    let character_dir := IMAGE_STORAGE_PATH ++ [uuid_str character_id] in
    w ← get_world;
    (if path_exists character_dir (images w) then
       try_except
         (if rmtree_ok env then modify (set_images (rmtree character_dir (images w)))
          else
            modify (set_images
                      (rmtree_partly (rmtree_removed env) character_dir (images w))) ;;
            raise OSError)
         (fun e => match e with OSError => ret tt | _ => raise e end)
     else ret tt) ;;
    let characters := PyDict.del character_id characters in
    _write_storage characters ;;
    ret true.

(** ** app/services/image_generator.py *)

(** [bool(s)] for a string. *)
Definition str_truthy (s : string) : bool :=
  match s with EmptyString => false | _ => true end.

(** [bool(o)] for an optional string. *)
Definition opt_str_truthy (o : option string) : bool :=
  match o with Some s => str_truthy s | None => false end.

(** [bool(variation_params)] for an [Optional[Dict]]. *)
Definition params_truthy (variation_params : option (list (string * string))) : bool :=
  match variation_params with
  | Some d => PyDict.truthy d
  | None => false
  end.

(** [sub in s] *)
Fixpoint str_contains (sub s : string) : bool :=
  String.prefix sub s ||
  match s with
  | EmptyString => false
  | String _ s' => str_contains sub s'
  end.

(** [base_prompt += f". {label}: {variation_params[key]}"] under
    [if variation_params.get(key)] *)
Definition append_attribute (d : list (string * string)) (key label : string)
    (base_prompt : string) : string :=
  if opt_str_truthy (PyDict.get key d)
  then base_prompt +:+ ". " +:+ label +:+ ": " +:+ default "" (PyDict.get key d)
  else base_prompt.

Definition PROMPT_OPENING : string :=
  "I NEED to test how the tool works with extremely simple prompts. DO NOT add any detail, just use it AS-IS: Character ID '".

Definition PROMPT_PORTRAIT : string :=
  "' - Create a portrait of this specific character: ".

Definition PROMPT_CLOSING : string :=
  ". IMPORTANT: This MUST be exactly the same character as previous images with the same Character ID. Maintain perfect consistency in the character's core features including face, body type, hair style, clothing style, and all distinctive characteristics. Use identical art style to previous generations.".

Definition create_prompt (character : Character)
    (variation_params : option (list (string * string))) : string :=
  let character_id_short := String.substring 0 8 (uuid_str (id character)) in
  let base_prompt :=
    PROMPT_OPENING +:+ character_id_short +:+ PROMPT_PORTRAIT +:+ description character in
  let base_prompt :=
    match variation_params with
    | Some d =>
        if PyDict.truthy d then
          let base_prompt := append_attribute d "pose" "Pose" base_prompt in
          let base_prompt := append_attribute d "expression" "Expression" base_prompt in
          let base_prompt := append_attribute d "setting" "Setting" base_prompt in
          base_prompt
        else base_prompt
    | None => base_prompt
    end in
  base_prompt +:+ PROMPT_CLOSING.

Definition mk_request (prompt : string) (seed : option Z) : Request :=
  {| req_model := "dall-e-3"; req_prompt := prompt; req_size := "1024x1024";
     req_quality := "standard"; req_n := 1; req_seed := seed |}.

(** [client.images.generate] with the keyword arguments [r] *)
Definition client_images_generate (r : Request) : M ImagesResponse :=
  fun w => (images_generate env r, add_call (ImagesGenerate r) w).

(** [async_client.get(url, timeout=60.0)] followed by
    [raise_for_status()] and [.content] *)
Definition async_client_get (url : string) : M bytes :=
  fun w => (http_get env url, add_call (HttpGet url) w).

Definition SEED_UNSUPPORTED : string := "unexpected keyword argument 'seed'".

Definition GENERATION_FAILED : exn :=
  HTTPException 500 "Image generation failed. Check server logs for details.".

(** The local variable [seed] and the character after lines 58-66:
    [None] is the variable left unbound. *)
Definition determine_seed (character : Character)
    (variation_params : option (list (string * string))) : option Z * Character :=
  if params_truthy variation_params && bool_decide (image_seed character <> None) then
    (image_seed character, character)
  else if negb (params_truthy variation_params) then
    let seed := randint env in
    (Some seed, set_image_seed (Some seed) character)
  else (None, character).

(** Lines 69-93: the seeded request and its fallback. *)
Definition request_image (prompt : string) (seed : option Z) : M ImagesResponse :=
  try_except
    (match seed with
     | Some s => client_images_generate (mk_request prompt (Some s))
     | None => raise (UnboundLocalError "seed")
     end)
    (fun e =>
       if is_TypeError e then
         if str_contains SEED_UNSUPPORTED (exn_str e)
         then client_images_generate (mk_request prompt None)
         else raise e
       else raise e).

(** Lines 97-102: the seed of the response, when it has one, replaces the
    character's. *)
Definition adopt_seed (first : Image) (character : Character) : Character :=
  match img_seed first with
  | Some s => set_image_seed (Some s) character
  | None => character
  end.

(** Lines 95-148: the response is read, the image downloaded and written
    below the character's folder.  The character object is mutated in
    place; the object as it is at the end comes back with the path. *)
Definition download_and_save (character : Character)
    (variation_params : option (list (string * string)))
    (response : ImagesResponse) : M (string * Character) :=
  first ← match data response with
           | [] => raise IndexError
           | i :: _ => ret i
           end;
  let image_url := img_url first in
  let character := adopt_seed first character in
  if negb (opt_str_truthy image_url) then
    raise (HTTPException 500 "OpenAI did not return an image URL.")
  else
  image_data ←
    try_except (async_client_get (default "" image_url))
      (fun e => match e with
                | HTTPStatusError code _ =>
                    raise (HTTPException 500
                      ("Failed to download image from OpenAI: Status " +:+ pretty code))
                | RequestError =>
                    raise (HTTPException 500
                      "Failed to download image from OpenAI: Request Error")
                | _ => raise e
                end);
  let timestamp := now_timestamp env in
  let file_name := uuid_str (id character) +:+ "_" +:+ timestamp +:+ ".png" in
  let folder_path :=
    if params_truthy variation_params
    then IMAGE_STORAGE_PATH ++ [uuid_str (id character); "variations"]
    else IMAGE_STORAGE_PATH ++ [uuid_str (id character)] in
  (if makedirs_ok env then modify (fun w => set_images (makedirs folder_path (images w)) w)
   else raise OSError) ;;
  let file_path := folder_path ++ [file_name] in
  try_except
    (if image_write_ok env
     then modify (fun w => set_images (write_file file_path image_data (images w)) w)
     else
       match image_write_fault env with
       | OpenFails => raise OSError
       | WriteFails written =>
           modify (fun w => set_images
                              (write_file file_path (take written image_data) (images w))
                              w) ;;
           raise OSError
       end)
    (fun e => match e with
              | OSError => raise (HTTPException 500 "Failed to save image file.")
              | _ => raise e
              end) ;;
  let relative_path := join_path (relpath file_path STATIC_FILES_DIR) in
  ret (relative_path, character).

(** The whole body runs under [try: ... except Exception], which turns
    every exception into the same [HTTPException]. *)
Definition generate_character_image (character : Character)
    (variation_params : option (list (string * string))) : M (string * Character) :=
  let prompt := create_prompt character variation_params in
  try_except
    (let '(seed, character) := determine_seed character variation_params in
     response ← request_image prompt seed;
     download_and_save character variation_params response)
    (fun e => raise GENERATION_FAILED).

(** ** app/api/endpoints/characters.py *)

(** [Character] built from the fields of [character_data] *)
Definition new_Character (character_data : CharacterCreate) : Character :=
  {| description := cc_description character_data;
     name := cc_name character_data;
     id := uuid4 env;
     created_at := now_created_at env;
     updated_at := now_updated_at env;
     base_image_path := None;
     image_seed := None;
     variations := [] |}.

Definition create_character (character_data : CharacterCreate) : M Character :=
  let new_character := new_Character character_data in
  '(base_image_path, new_character) ← generate_character_image new_character None;
  if negb (str_truthy base_image_path) then
    raise (HTTPException 500 "Failed to generate base image.")
  else
    let new_character := set_base_image_path (Some base_image_path) new_character in
    saved_character ← save_character new_character;
    ret saved_character.

Definition read_character_by_id (character_id : UUID) : M Character :=
  character ← get_character character_id;
  match character with
  | None => raise (HTTPException 404 "Character not found")
  | Some character => ret character
  end.

Definition read_characters : M (list Character) := get_all_characters.

(** [{k: v for k, v in variation_params.items() if v is not None}] *)
Definition active_params (variation_params : list (string * option string))
  : list (string * string) :=
  omap (fun kv => match snd kv with Some v => Some (fst kv, v) | None => None end)
       variation_params.

Definition create_character_variation (character_id : UUID)
    (pose expression setting : option string) : M Character :=
  character ← get_character character_id;
  match character with
  | None => raise (HTTPException 404 "Character not found")
  | Some character =>
      let variation_params :=
        [("pose", pose); ("expression", expression); ("setting", setting)] in
      let active_variation_params := active_params variation_params in
      if negb (PyDict.truthy active_variation_params) then
        raise (HTTPException 400
          "At least one variation parameter (pose, expression, setting) must be provided")
      else
        '(image_path, character) ←
          generate_character_image character (Some active_variation_params);
        if negb (str_truthy image_path) then
          raise (HTTPException 500 "Failed to generate variation image.")
        else
          let variation :=
            {| image_path := image_path;
               pose := PyDict.get "pose" active_variation_params;
               expression := PyDict.get "expression" active_variation_params;
               setting := PyDict.get "setting" active_variation_params;
               generated_at := now_generated_at env |} in
          let character := variations_append variation character in
          updated_character ← update_character character;
          match updated_character with
          | None => raise (HTTPException 404 "Character not found during update process.")
          | Some updated_character => ret updated_character
          end
  end.

Definition remove_character (character_id : UUID) : M unit :=
  deleted ← delete_character character_id;
  if negb deleted then raise (HTTPException 404 "Character not found")
  else ret tt.

(** ** Vocabulary of the statements *)

(** The store can be read: [_read_storage] returns a dictionary instead of
    raising. *)
Definition readable (s : StorageFile) : bool :=
  match s with
  | FileUndecodable | FileJsonOther => false
  | _ => true
  end.

(** The store can be read and holds no record under [character_id]. *)
Definition absent (w : World) (character_id : UUID) : Prop :=
  exists characters,
    _read_storage w = (Ok characters, w) /\
    PyDict.get character_id characters = None.

(** The store can be read and holds [character] under its identifier. *)
Definition stored (w : World) (character : Character) : Prop :=
  exists characters,
    _read_storage w = (Ok characters, w) /\
    PyDict.get (id character) characters = Some character.

(** The world after the directory-removal step of [delete_character]. *)
Definition after_rmtree (character_id : UUID) (w : World) : World :=
  let character_dir := IMAGE_STORAGE_PATH ++ [uuid_str character_id] in
  if path_exists character_dir (images w) then
    if rmtree_ok env then set_images (rmtree character_dir (images w)) w
    else set_images (rmtree_partly (rmtree_removed env) character_dir (images w)) w
  else w.

(** The world after a write of the storage file that failed. *)
Definition after_failed_write (f : write_fault) (w : World) : World :=
  match f with
  | OpenFails => w
  | WriteFails _ => set_storage FileNotJson w
  end.

(** The storage file is missing or is not JSON. *)
Definition unusable (s : StorageFile) : bool :=
  match s with
  | FileMissing | FileNotJson => true
  | _ => false
  end.

(** The requests sent to the generation backend so far. *)
Definition backend_requests (w : World) : list Request :=
  omap (fun e => match e with ImagesGenerate r => Some r | HttpGet _ => None end)
       (calls w).

(** The check of line 81 on a raised exception. *)
Definition seed_unsupported (e : exn) : bool :=
  is_TypeError e && str_contains SEED_UNSUPPORTED (exn_str e).

End Service.

Section Vocabulary.
Context `{HU : UuidLib} `{HP : !Pydantic}.

(** The seeded request of a generation is answered by the exception that
    makes the code retry without the seed. *)
Definition retry_needed (env : Env) (prompt : string) (s : Z) : bool :=
  match images_generate env (mk_request prompt (Some s)) with
  | Raise e => seed_unsupported e
  | Ok _ => false
  end.

(** The generation step of a call fails: the backend stage raises, or its
    response has no image or no URL. *)
Definition generation_fails (env : Env) (c : Character)
    (vp : option (list (string * string))) (w : World) : Prop :=
  match fst (request_image env (create_prompt c vp) (fst (determine_seed env c vp)) w) with
  | Raise _ => True
  | Ok response =>
      match data response with
      | [] => True
      | first :: _ => opt_str_truthy (img_url first) = false
      end
  end.

(** The download step fails: the backend stage gave a URL and fetching it
    raises. *)
Definition download_fails (env : Env) (c : Character)
    (vp : option (list (string * string))) (w : World) : Prop :=
  exists response first rest url e,
    fst (request_image env (create_prompt c vp) (fst (determine_seed env c vp)) w)
      = Ok response /\
    data response = first :: rest /\
    img_url first = Some url /\
    http_get env url = Raise e.

(** The asset-write step fails: the folder cannot be made or the file
    cannot be written. *)
Definition asset_write_fails (env : Env) : Prop :=
  makedirs_ok env = false \/ image_write_ok env = false.

(** An attribute of a variation request that [create_prompt] takes as
    present: bound in the dictionary to a non-empty string. *)
Definition present_attribute (vp : option (list (string * string)))
    (key : string) : option string :=
  match vp with
  | Some d =>
      match PyDict.get key d with
      | Some v => if str_truthy v then Some v else None
      | None => None
      end
  | None => None
  end.

(** The text a present attribute adds to the prompt. *)
Definition attribute_text (label : string) (o : option string) : string :=
  match o with
  | Some v => ". " +:+ label +:+ ": " +:+ v
  | None => ""
  end.

End Vocabulary.

(** ** app/core/security.py *)

(** [get_api_key]: [correct_api_key] is [settings.API_KEY] and
    [api_key_header] the value of the X-API-Key header, [None] when the
    request has none. *)
Definition get_api_key (correct_api_key : string)
    (api_key_header : option string) : res string :=
  if negb (str_truthy correct_api_key) then
    Raise (HTTPException 500 "API Key not configured on server.")
  else if negb (opt_str_truthy api_key_header) then
    Raise (HTTPException 401 "Missing API Key in X-API-Key header")
  else if negb (String.eqb (default "" api_key_header) correct_api_key) then
    Raise (HTTPException 401 "Invalid API Key")
  else Ok (default "" api_key_header).

Section StoreVocabulary.
Context `{HU : UuidLib} `{HP : !Pydantic}.


(** Every record of the dictionary sits under its own identifier. *)
Definition keyed_by_id (d : list (UUID * Character)) : Prop :=
  forall k c, PyDict.get k d = Some c -> id c = k.

(** The folder a generation for [c] writes into. *)
Definition asset_folder (c : Character)
    (vp : option (list (string * string))) : path :=
  if params_truthy vp
  then IMAGE_STORAGE_PATH ++ [uuid_str (id c); "variations"]
  else IMAGE_STORAGE_PATH ++ [uuid_str (id c)].

(** The path of the file a generation for [c] writes. *)
Definition asset_file (env : Env) (c : Character)
    (vp : option (list (string * string))) : path :=
  asset_folder c vp
  ++ [uuid_str (id c) +:+ "_" +:+ now_timestamp env +:+ ".png"].

(** The reference a generation for [c] returns: the path of the file
    below the static directory, with ['/'] between the components. *)
Definition asset_reference (env : Env) (c : Character)
    (vp : option (list (string * string))) : string :=
  "images/" +:+ uuid_str (id c)
  +:+ (if params_truthy vp then "/variations/" else "/")
  +:+ uuid_str (id c) +:+ "_" +:+ now_timestamp env +:+ ".png".

End StoreVocabulary.

(** ** A reference instance of the library interface

    Identifiers are kept in their textual form, and a stored entry is
    either a record that validates ([Some]) or one that does not. *)

Module Reference.

#[export] Instance uuid_lib : UuidLib := {|
  UUID := string;
  uuid_str := fun u => u;
  uuid_parse := fun k => Some k;
  uuid_parse_str := fun u => eq_refl;
|}.

#[export] Instance pydantic : Pydantic := {|
  json := option Character;
  model_dump := fun c => Some c;
  model_validate := fun v => v;
  model_validate_dump := fun c => eq_refl;
|}.

Definition fox_id : UUID := "3f2a9c1e-5b7d-4e8a-9c0f-1a2b3c4d5e6f".

Definition fox : Character := {|
  description := "a red fox wearing a blue scarf";
  name := Some "Fox";
  id := fox_id;
  created_at := 1000;
  updated_at := 1000;
  base_image_path := Some "images/3f2a9c1e-5b7d-4e8a-9c0f-1a2b3c4d5e6f/3f2a9c1e-5b7d-4e8a-9c0f-1a2b3c4d5e6f_20240101120000000000.png";
  image_seed := Some 42;
  variations := [];
|}.

Definition fox_dir : path := IMAGE_STORAGE_PATH ++ [fox_id].

Definition fox_base_file : path :=
  fox_dir ++ ["3f2a9c1e-5b7d-4e8a-9c0f-1a2b3c4d5e6f_20240101120000000000.png"].

Definition png : bytes := [Byte.x89; Byte.x50; Byte.x4e; Byte.x47].

(** A store holding the fox, with its base image on disk. *)
Definition fox_world : World := {|
  storage := FileJsonObject [(fox_id, Some fox)];
  images := {| dirs := [STATIC_FILES_DIR; IMAGE_STORAGE_PATH; fox_dir];
               files := [(fox_base_file, png)] |};
  calls := [];
|}.

(** A backend that accepts the seed and answers with a URL; [echo] is the
    seed its response carries. *)
Definition seeded_backend (echo : option Z) (r : Request) : res ImagesResponse :=
  Ok {| data := [ {| img_url := Some "https://images.example/fox.png";
                     img_seed := echo |} ] |}.

(** A client library that does not know the [seed] keyword. *)
Definition unseeded_backend (r : Request) : res ImagesResponse :=
  match req_seed r with
  | Some _ => Raise (TypeError "Images.generate() got an unexpected keyword argument 'seed'")
  | None => Ok {| data := [ {| img_url := Some "https://images.example/fox.png";
                               img_seed := None |} ] |}
  end.

(** An identifier no record is stored under. *)
Definition other_id : UUID := "7d1c0b2a-0000-4000-8000-000000000001".


Definition env_with (backend : Request -> res ImagesResponse) : Env := {|
  images_generate := backend;
  http_get := fun _ => Ok png;
  randint := 123456;
  uuid4 := fox_id;
  now_created_at := 1000;
  now_updated_at := 1000;
  now_generated_at := 2000;
  now_timestamp := "20240101120500000000";
  now_store := 2001;
  storage_write_ok := true;
  makedirs_ok := true;
  image_write_ok := true;
  rmtree_ok := true;
  storage_write_fault := OpenFails;
  image_write_fault := OpenFails;
  rmtree_removed := fun _ => false;
|}.

(** An environment in which the storage file is opened and the write then
    fails. *)
Definition truncating_env : Env := {|
  images_generate := seeded_backend None;
  http_get := fun _ => Ok png;
  randint := 123456;
  uuid4 := other_id;
  now_created_at := 1000;
  now_updated_at := 1000;
  now_generated_at := 2000;
  now_timestamp := "20240101120500000000";
  now_store := 2001;
  storage_write_ok := false;
  makedirs_ok := true;
  image_write_ok := true;
  rmtree_ok := true;
  storage_write_fault := WriteFails 0;
  image_write_fault := OpenFails;
  rmtree_removed := fun _ => false;
|}.


(** An environment whose backend answers and whose downloads fail. *)
Definition offline_env : Env := {|
  images_generate := seeded_backend None;
  http_get := fun _ => Raise RequestError;
  randint := 123456;
  uuid4 := fox_id;
  now_created_at := 1000;
  now_updated_at := 1000;
  now_generated_at := 2000;
  now_timestamp := "20240101120500000000";
  now_store := 2001;
  storage_write_ok := true;
  makedirs_ok := true;
  image_write_ok := true;
  rmtree_ok := true;
  storage_write_fault := OpenFails;
  image_write_fault := OpenFails;
  rmtree_removed := fun _ => false;
|}.

End Reference.

(** ** Dictionaries: lookup after assignment and deletion *)

Section PyDictFacts.
Context {K V : Type} `{EqDecision K}.
Implicit Types (k : K) (v : V) (d : list (K * V)).

Lemma dict_get_set_eq k v d : PyDict.get k (PyDict.set k v d) = Some v.
Proof.
  induction d as [|[k' v'] d IH]; simpl.
  - by rewrite decide_True.
  - destruct (decide (k = k')) as [->|Hne]; simpl.
    + by rewrite decide_True.
    + by rewrite decide_False.
Qed.

Lemma dict_get_set_ne k k' v d :
  k <> k' -> PyDict.get k' (PyDict.set k v d) = PyDict.get k' d.
Proof.
  intros Hne. induction d as [|[k0 v0] d IH]; simpl.
  - rewrite decide_False; [done | congruence].
  - destruct (decide (k = k0)) as [->|Hk]; simpl.
    + rewrite !decide_False; [done | congruence | congruence].
    + destruct (decide (k' = k0)); [done | exact IH].
Qed.

Lemma dict_get_del_eq k d : PyDict.get k (PyDict.del k d) = None.
Proof.
  induction d as [|[k' v'] d IH]; simpl; [done|].
  destruct (decide (k = k')) as [->|Hne]; simpl; [done|].
  by rewrite decide_False.
Qed.

Lemma dict_get_del_ne k k' d :
  k <> k' -> PyDict.get k' (PyDict.del k d) = PyDict.get k' d.
Proof.
  intros Hne. induction d as [|[k0 v0] d IH]; simpl; [done|].
  destruct (decide (k = k0)) as [->|Hk]; simpl.
  - rewrite decide_False; [exact IH | congruence].
  - destruct (decide (k' = k0)); [done | exact IH].
Qed.

Lemma dict_get_None k d : PyDict.get k d = None <-> k ∉ PyDict.keys d.
Proof.
  induction d as [|[k' v'] d IH]; simpl.
  - split; [intros _; apply not_elem_of_nil | done].
  - rewrite not_elem_of_cons. destruct (decide (k = k')) as [->|Hne].
    + split; [done | intros [? _]; done].
    + rewrite IH. tauto.
Qed.

Lemma dict_contains_false k d :
  PyDict.contains k d = false <-> PyDict.get k d = None.
Proof. unfold PyDict.contains. destruct (PyDict.get k d); split; congruence. Qed.

Lemma dict_set_fresh k v d : k ∉ PyDict.keys d -> PyDict.set k v d = d ++ [(k, v)].
Proof.
  induction d as [|[k' v'] d IH]; simpl; [done|].
  rewrite not_elem_of_cons. intros [Hne Hnin].
  rewrite decide_False by done. by rewrite IH.
Qed.

Lemma dict_keys_set k v d :
  PyDict.keys (PyDict.set k v d) =
  if PyDict.contains k d then PyDict.keys d else PyDict.keys d ++ [k].
Proof.
  unfold PyDict.contains.
  induction d as [|[k' v'] d IH]; simpl; [done|].
  destruct (decide (k = k')) as [->|Hne]; simpl; [done|].
  rewrite IH. by destruct (PyDict.get k d).
Qed.

Lemma dict_NoDup_set k v d :
  NoDup (PyDict.keys d) -> NoDup (PyDict.keys (PyDict.set k v d)).
Proof.
  intros Hnd. rewrite dict_keys_set.
  destruct (PyDict.contains k d) eqn:Hc; [done|].
  apply dict_contains_false, dict_get_None in Hc.
  apply NoDup_app. split_and!; [done | | apply NoDup_singleton].
  intros x Hx ->%list_elem_of_singleton. done.
Qed.

Lemma dict_keys_del_subseteq k d : PyDict.keys (PyDict.del k d) ⊆ PyDict.keys d.
Proof.
  induction d as [|[k' v'] d IH]; simpl; [done|].
  destruct (decide (k = k')); simpl.
  - intros x Hx. right. by apply IH.
  - intros x [->|Hx]%elem_of_cons; [left | right; by apply IH].
Qed.

Lemma dict_NoDup_del k d :
  NoDup (PyDict.keys d) -> NoDup (PyDict.keys (PyDict.del k d)).
Proof.
  induction d as [|[k' v'] d IH]; simpl; [done|].
  rewrite NoDup_cons. intros [Hnin Hnd].
  destruct (decide (k = k')); simpl; [by apply IH|].
  apply NoDup_cons. split; [| by apply IH].
  intros Hin. apply Hnin. by apply (dict_keys_del_subseteq k).
Qed.

End PyDictFacts.

(** ** The record store: reading back what was written *)

Ltac munfold :=
  unfold mbind, M_bind, bind, ret, raise, try_except, get_world, modify in *.

Section StoreFacts.
Context `{HU : UuidLib} `{HP : !Pydantic}.
Implicit Types (w : World) (c : Character) (d : list (UUID * Character)).

(** What [_read_storage] returns never binds a key twice. *)
Lemma read_entries_NoDup items d :
  NoDup (PyDict.keys d) -> NoDup (PyDict.keys (fold_left read_entry items d)).
Proof.
  revert d. induction items as [|[k v] items IH]; intros d Hd; simpl; [done|].
  apply IH. unfold read_entry; simpl.
  destruct (model_validate v), (uuid_parse k); try done.
  by apply dict_NoDup_set.
Qed.

Lemma read_storage_NoDup w d w' :
  _read_storage w = (Ok d, w') -> NoDup (PyDict.keys d).
Proof.
  unfold _read_storage. munfold.
  destruct (storage w); intros [= <- _]; try apply NoDup_nil_2.
  apply read_entries_NoDup, NoDup_nil_2.
Qed.

Lemma read_storage_world w r w' : _read_storage w = (r, w') -> w' = w.
Proof.
  unfold _read_storage. munfold. by destruct (storage w); intros [= _ <-].
Qed.

(** Reading the entries that [_write_storage] wrote gives the dictionary
    back, in the same order. *)
Lemma read_entries_serialize d acc :
  NoDup (PyDict.keys (acc ++ d)) ->
  fold_left read_entry (serialize d) acc = acc ++ d.
Proof.
  revert acc. induction d as [|[k c] d IH]; intros acc Hnd; simpl.
  - by rewrite app_nil_r.
  - unfold read_entry at 2; simpl.
    rewrite model_validate_dump, uuid_parse_str.
    assert (Hk : k ∉ PyDict.keys acc).
    { unfold PyDict.keys in *. rewrite map_app in Hnd. simpl in Hnd.
      apply NoDup_app in Hnd as (_ & Hdisj & _).
      intros Hin. apply (Hdisj k Hin). left. }
    rewrite (dict_set_fresh _ _ _ Hk).
    rewrite IH; rewrite <- app_assoc; done.
Qed.

Lemma read_after_write w d :
  NoDup (PyDict.keys d) ->
  _read_storage (set_storage (FileJsonObject (serialize d)) w)
  = (Ok d, set_storage (FileJsonObject (serialize d)) w).
Proof.
  intros Hnd. unfold _read_storage. munfold. simpl.
  by rewrite (read_entries_serialize d []).
Qed.

Lemma write_storage_ok env d w :
  storage_write_ok env = true ->
  _write_storage env d w = (Ok tt, set_storage (FileJsonObject (serialize d)) w).
Proof. intros Hok. unfold _write_storage. by rewrite Hok. Qed.

Lemma write_storage_fails env d w :
  storage_write_ok env = false ->
  _write_storage env d w
  = (Raise (HTTPException 500 "Failed to save character data."),
     after_failed_write (storage_write_fault env) w).
Proof.
  intros Hno. unfold _write_storage, after_failed_write. rewrite Hno. munfold.
  by destruct (storage_write_fault env).
Qed.

Lemma write_storage_Ok env d w w' :
  _write_storage env d w = (Ok tt, w') ->
  storage_write_ok env = true /\
  w' = set_storage (FileJsonObject (serialize d)) w.
Proof.
  destruct (storage_write_ok env) eqn:Hok.
  - rewrite write_storage_ok by done. by intros [= <-].
  - by rewrite write_storage_fails.
Qed.

Lemma read_storage_readable w :
  readable (storage w) = true -> exists d, _read_storage w = (Ok d, w).
Proof.
  unfold _read_storage. munfold. destruct (storage w); try done; eauto.
Qed.

Lemma read_storage_Ok_readable w d w' :
  _read_storage w = (Ok d, w') -> readable (storage w) = true.
Proof.
  unfold _read_storage. munfold. by destruct (storage w).
Qed.

End StoreFacts.

(** ** The record store: its operations *)

Section StoreOperations.
Context `{HU : UuidLib} `{HP : !Pydantic}.
Implicit Types (w : World) (c : Character) (d : list (UUID * Character)).

Lemma save_character_ok env c w d :
  _read_storage w = (Ok d, w) ->
  storage_write_ok env = true ->
  save_character env c w
  = (Ok (set_updated_at (now_store env) c),
     set_storage
       (FileJsonObject
          (serialize (PyDict.set (id c) (set_updated_at (now_store env) c) d))) w).
Proof.
  intros Hread Hok. unfold save_character. munfold. rewrite Hread. simpl.
  by rewrite write_storage_ok.
Qed.

Lemma get_character_read character_id w d :
  _read_storage w = (Ok d, w) ->
  get_character character_id w = (Ok (PyDict.get character_id d), w).
Proof. intros Hread. unfold get_character. munfold. by rewrite Hread. Qed.

Lemma update_character_absent env c w :
  absent w (id c) -> update_character env c w = (Ok None, w).
Proof.
  intros (d & Hread & Hget). unfold update_character. munfold. rewrite Hread.
  apply dict_contains_false in Hget. by rewrite Hget.
Qed.

Lemma delete_character_absent env character_id w :
  absent w character_id -> delete_character env character_id w = (Ok false, w).
Proof.
  intros (d & Hread & Hget). unfold delete_character. munfold. rewrite Hread.
  apply dict_contains_false in Hget. by rewrite Hget.
Qed.

Lemma after_rmtree_world env character_id w :
  after_rmtree env character_id w
  = set_images (images (after_rmtree env character_id w)) w.
Proof.
  unfold after_rmtree.
  destruct (path_exists _ (images w)), (rmtree_ok env); try done; by destruct w.
Qed.

(** [delete_character] on a stored identifier: the directory-removal step,
    then the write. *)
Lemma delete_character_stages env character_id w d :
  _read_storage w = (Ok d, w) ->
  PyDict.contains character_id d = true ->
  delete_character env character_id w
  = match _write_storage env (PyDict.del character_id d)
            (after_rmtree env character_id w) with
    | (Ok _, w1) => (Ok true, w1)
    | (Raise e, w1) => (Raise e, w1)
    end.
Proof.
  intros Hread Hc. unfold delete_character, after_rmtree. munfold.
  rewrite Hread, Hc. simpl.
  destruct (path_exists _ (images w)), (rmtree_ok env); simpl;
    by destruct (_write_storage env _ _) as [[[]|e] w1].
Qed.

(** A deletion that reports [true] has written the dictionary without the
    key. *)
Lemma delete_character_true env character_id w w1 :
  delete_character env character_id w = (Ok true, w1) ->
  exists d fs,
    _read_storage w = (Ok d, w) /\
    PyDict.contains character_id d = true /\
    storage_write_ok env = true /\
    w1 = set_storage (FileJsonObject (serialize (PyDict.del character_id d)))
           (set_images fs w).
Proof.
  intros Hdel.
  destruct (_read_storage w) as [[d|e] w0] eqn:Hread.
  - pose proof (read_storage_world _ _ _ Hread) as ->.
    destruct (PyDict.contains character_id d) eqn:Hc.
    + rewrite (delete_character_stages _ _ _ _ Hread Hc) in Hdel.
      destruct (_write_storage env _ _) as [[[]|e] w2] eqn:Hw; [|done].
      apply write_storage_Ok in Hw as [Hok ->]. injection Hdel as <-.
      exists d, (images (after_rmtree env character_id w)).
      split_and!; try done. by rewrite <- after_rmtree_world.
    + revert Hdel. unfold delete_character. munfold. by rewrite Hread, Hc.
  - revert Hdel. unfold delete_character. munfold. by rewrite Hread.
Qed.

Lemma fst_get_character k w d :
  _read_storage w = (Ok d, w) -> fst (get_character k w) = Ok (PyDict.get k d).
Proof. intros Hread. by rewrite (get_character_read _ _ _ Hread). Qed.

Lemma get_character_Some_read k w c :
  get_character k w = (Ok (Some c), w) ->
  exists d, _read_storage w = (Ok d, w) /\ PyDict.get k d = Some c.
Proof.
  unfold get_character. munfold.
  destruct (_read_storage w) as [[d|e] w0] eqn:Hread; [|done].
  pose proof (read_storage_world _ _ _ Hread) as ->.
  intros [= Hget]. by exists d.
Qed.

Lemma dict_contains_true {K V} `{EqDecision K} (k : K) (v : V) (d : list (K * V)) :
  PyDict.get k d = Some v -> PyDict.contains k d = true.
Proof. unfold PyDict.contains. by intros ->. Qed.

Lemma after_rmtree_frame env character_id w :
  storage (after_rmtree env character_id w) = storage w /\
  calls (after_rmtree env character_id w) = calls w.
Proof.
  unfold after_rmtree. by destruct (path_exists _ (images w)), (rmtree_ok env).
Qed.

Lemma delete_character_read env character_id w d :
  _read_storage w = (Ok d, w) ->
  PyDict.contains character_id d = true ->
  storage_write_ok env = true ->
  exists w1,
    delete_character env character_id w = (Ok true, w1) /\
    _read_storage w1 = (Ok (PyDict.del character_id d), w1) /\
    calls w1 = calls w /\
    images w1 = images (after_rmtree env character_id w).
Proof.
  intros Hread Hc Hok.
  assert (Hnd := dict_NoDup_del character_id d (read_storage_NoDup _ _ _ Hread)).
  rewrite (delete_character_stages _ _ _ _ Hread Hc), write_storage_ok by done.
  eexists. split; [reflexivity|]. split_and!.
  - by apply read_after_write.
  - apply after_rmtree_frame.
  - done.
Qed.


Lemma unusable_read w :
  unusable (storage w) = true -> _read_storage w = (Ok [], w).
Proof. unfold _read_storage. munfold. by destruct (storage w). Qed.

End StoreOperations.

(** ** The generation workflow *)

Section GeneratorFacts.
Context `{HU : UuidLib} `{HP : !Pydantic}.
Implicit Types (w : World) (c : Character) (vp : option (list (string * string))).

Lemma request_image_seeded env prompt s w :
  request_image env prompt (Some s) w =
  match images_generate env (mk_request prompt (Some s)) with
  | Ok r => (Ok r, add_call (ImagesGenerate (mk_request prompt (Some s))) w)
  | Raise e =>
      if seed_unsupported e then
        (images_generate env (mk_request prompt None),
         add_call (ImagesGenerate (mk_request prompt None))
           (add_call (ImagesGenerate (mk_request prompt (Some s))) w))
      else (Raise e, add_call (ImagesGenerate (mk_request prompt (Some s))) w)
  end.
Proof.
  unfold request_image, client_images_generate, seed_unsupported. munfold.
  destruct (images_generate env (mk_request prompt (Some s))) as [r|e]; [done|].
  destruct (is_TypeError e); simpl; [|done].
  by destruct (str_contains SEED_UNSUPPORTED (exn_str e)).
Qed.

Lemma request_image_unbound env prompt w :
  request_image env prompt None w = (Raise (UnboundLocalError "seed"), w).
Proof. reflexivity. Qed.

Lemma determine_seed_variation env c vp s :
  params_truthy vp = true -> image_seed c = Some s ->
  determine_seed env c vp = (Some s, c).
Proof.
  intros Hvp Hs. unfold determine_seed. by rewrite Hvp, Hs.
Qed.

Lemma determine_seed_unset env c vp :
  params_truthy vp = true -> image_seed c = None ->
  determine_seed env c vp = (None, c).
Proof.
  intros Hvp Hs. unfold determine_seed. by rewrite Hvp, Hs.
Qed.

Lemma determine_seed_base env c vp :
  params_truthy vp = false ->
  determine_seed env c vp
  = (Some (randint env), set_image_seed (Some (randint env)) c).
Proof. intros Hvp. unfold determine_seed. by rewrite Hvp. Qed.

Lemma backend_requests_add_generate w r :
  backend_requests (add_call (ImagesGenerate r) w) = backend_requests w ++ [r].
Proof. unfold backend_requests, add_call; simpl. by rewrite omap_app. Qed.

Lemma backend_requests_add_get w url :
  backend_requests (add_call (HttpGet url) w) = backend_requests w.
Proof.
  unfold backend_requests, add_call; simpl. rewrite omap_app; simpl.
  by rewrite app_nil_r.
Qed.

Lemma download_and_save_Ok env c vp response w path c' w' :
  download_and_save env c vp response w = (Ok (path, c'), w') ->
  exists first rest url image_data,
    data response = first :: rest /\
    img_url first = Some url /\ str_truthy url = true /\
    http_get env url = Ok image_data /\
    makedirs_ok env = true /\ image_write_ok env = true /\
    c' = adopt_seed first c /\
    calls w' = calls w ++ [HttpGet url] /\
    storage w' = storage w.
Proof.
  unfold download_and_save, async_client_get. munfold.
  destruct (data response) as [|first rest]; [done|]. simpl.
  destruct (img_url first) as [url|] eqn:Himg; simpl; [|done].
  destruct (str_truthy url) eqn:Hurl; simpl; [|done].
  destruct (http_get env url) as [image_data|e] eqn:Hget; simpl.
  - destruct (makedirs_ok env), (image_write_ok env), (image_write_fault env); simpl; try done.
    all: intros [= <- <- <-]; eexists first, rest, url, image_data;
      by split_and!.
  - by destruct e.
Qed.

Lemma download_and_save_frame env c vp response w r w' :
  download_and_save env c vp response w = (r, w') ->
  storage w' = storage w /\ backend_requests w' = backend_requests w.
Proof.
  unfold download_and_save, async_client_get. munfold.
  destruct (data response) as [|first rest]; simpl; [by intros [= _ <-]|].
  destruct (negb (opt_str_truthy (img_url first))); [by intros [= _ <-]|].
  destruct (http_get env _) as [image_data|e]; simpl.
  - destruct (makedirs_ok env), (image_write_ok env), (image_write_fault env); simpl;
      intros [= _ <-]; unfold backend_requests; simpl;
      by rewrite omap_app, app_nil_r.
  - destruct e; intros [= _ <-]; unfold backend_requests; simpl;
      by rewrite omap_app, app_nil_r.
Qed.

(** [generate_character_image] stage by stage. *)
Lemma generate_character_image_stages env c vp w :
  generate_character_image env c vp w =
  match request_image env (create_prompt c vp) (fst (determine_seed env c vp)) w with
  | (Ok response, w1) =>
      try_except (download_and_save env (snd (determine_seed env c vp)) vp response)
        (fun _ => raise GENERATION_FAILED) w1
  | (Raise _, w1) => (Raise GENERATION_FAILED, w1)
  end.
Proof.
  unfold generate_character_image. munfold.
  destruct (determine_seed env c vp) as [seed c0]; simpl.
  by destruct (request_image env (create_prompt c vp) seed w) as [[response|e] w1].
Qed.

Lemma request_image_frame env prompt seed w r w' :
  request_image env prompt seed w = (r, w') -> storage w' = storage w.
Proof.
  destruct seed as [s|].
  - rewrite request_image_seeded.
    destruct (images_generate env _) as [?|e]; [by intros [= _ <-]|].
    destruct (seed_unsupported e); by intros [= _ <-].
  - rewrite request_image_unbound. by intros [= _ <-].
Qed.

Lemma generate_character_image_frame env c vp w r w' :
  generate_character_image env c vp w = (r, w') -> storage w' = storage w.
Proof.
  rewrite generate_character_image_stages.
  destruct (request_image _ _ _ w) as [[response|e] w1] eqn:Hreq;
    apply request_image_frame in Hreq.
  - unfold try_except.
    destruct (download_and_save _ _ _ _ w1) as [[x|e] w2] eqn:Hd;
      apply download_and_save_frame in Hd as [Hd _]; unfold raise;
      intros [= _ <-]; congruence.
  - intros [= _ <-]; congruence.
Qed.

Lemma generate_character_image_Raise env c vp w e w' :
  generate_character_image env c vp w = (Raise e, w') -> e = GENERATION_FAILED.
Proof.
  rewrite generate_character_image_stages.
  destruct (request_image _ _ _ w) as [[response|e0] w1]; [|by intros [= <- _]].
  unfold try_except, raise.
  destruct (download_and_save _ _ _ _ w1) as [[x|e1] w2]; [done|by intros [= <- _]].
Qed.

Lemma generate_character_image_Ok env c vp w path c' w' :
  generate_character_image env c vp w = (Ok (path, c'), w') ->
  exists response w1,
    request_image env (create_prompt c vp) (fst (determine_seed env c vp)) w
      = (Ok response, w1) /\
    download_and_save env (snd (determine_seed env c vp)) vp response w1
      = (Ok (path, c'), w').
Proof.
  rewrite generate_character_image_stages.
  destruct (request_image _ _ _ w) as [[response|e0] w1]; [|done].
  unfold try_except, raise.
  destruct (download_and_save _ _ _ _ w1) as [[x|e1] w2] eqn:Hd; [|done].
  intros [= -> ->]. by exists response, w1.
Qed.

End GeneratorFacts.

(** ** Statements about the record store *)



(** C10. When the storage file is missing or is not JSON, the store
    behaves as an empty collection: [get_character] finds nothing under any
    identifier, [get_all_characters] returns the empty list,
    [update_character] and [delete_character] report an absent record, none
    of them changing anything, and a [save_character] that can write leaves
    a file holding the saved record and nothing else. *)
Theorem unusable_file_is_empty_store `{HU : UuidLib} `{HP : !Pydantic}
    (env : Env) (w : World) (c : Character) (character_id : UUID) :
  unusable (storage w) = true ->
  get_character character_id w = (Ok None, w) /\
  get_all_characters w = (Ok [], w) /\
  update_character env c w = (Ok None, w) /\
  delete_character env character_id w = (Ok false, w) /\
  (storage_write_ok env = true ->
   save_character env c w
   = (Ok (set_updated_at (now_store env) c),
      set_storage
        (FileJsonObject
           [(uuid_str (id c), model_dump (set_updated_at (now_store env) c))]) w)).
Proof.
  intros Hun. pose proof (unusable_read w Hun) as Hread.
  split_and!.
  - by rewrite (get_character_read _ _ _ Hread).
  - unfold get_all_characters. munfold. by rewrite Hread.
  - apply update_character_absent. by exists [].
  - apply delete_character_absent. by exists [].
  - intros Hok. by rewrite (save_character_ok _ _ _ _ Hread Hok).
Qed.

Lemma unusable_file_is_empty_store_witness :
  get_character Reference.fox_id
    (set_storage FileNotJson Reference.fox_world)
  = (Ok None, set_storage FileNotJson Reference.fox_world) /\
  get_all_characters (set_storage FileMissing Reference.fox_world)
  = (Ok [], set_storage FileMissing Reference.fox_world).
Proof.
  split.
  - exact (proj1 (unusable_file_is_empty_store
                    (Reference.env_with Reference.unseeded_backend)
                    (set_storage FileNotJson Reference.fox_world)
                    Reference.fox Reference.fox_id eq_refl)).
  - exact (proj1 (proj2 (unusable_file_is_empty_store
                    (Reference.env_with Reference.unseeded_backend)
                    (set_storage FileMissing Reference.fox_world)
                    Reference.fox Reference.fox_id eq_refl))).
Defined.

(** C6. For an identifier the store holds no record of, [get_character]
    returns [None] without raising, [delete_character] returns [false] and
    [create_character_variation] fails with 404 "Character not found"; none
    of the three changes the world.  After a [delete_character] that
    returned [true], [get_character] on the same identifier returns [None]
    and a second [delete_character] returns [false]. *)
Theorem unknown_identity `{HU : UuidLib} `{HP : !Pydantic}
    (env env2 : Env) (w : World) (character_id : UUID)
    (p e s : option string) :
  (absent w character_id ->
     get_character character_id w = (Ok None, w) /\
     delete_character env character_id w = (Ok false, w) /\
     create_character_variation env character_id p e s w
     = (Raise (HTTPException 404 "Character not found"), w))
  /\
  (forall w1,
     delete_character env character_id w = (Ok true, w1) ->
     get_character character_id w1 = (Ok None, w1) /\
     delete_character env2 character_id w1 = (Ok false, w1)).
Proof.
  split.
  - intros Habs. pose proof Habs as (d & Hread & Hget).
    assert (Hg : get_character character_id w = (Ok None, w)).
    { by rewrite (get_character_read _ _ _ Hread), Hget. }
    split_and!; [done | by apply delete_character_absent |].
    unfold create_character_variation. munfold. by rewrite Hg.
  - intros w1 Hdel.
    apply delete_character_true in Hdel as (d & fs & Hread & _ & _ & ->).
    pose proof (read_storage_NoDup _ _ _ Hread) as Hnd.
    assert (Habs : absent
      (set_storage (FileJsonObject (serialize (PyDict.del character_id d)))
         (set_images fs w)) character_id).
    { exists (PyDict.del character_id d). split.
      - apply read_after_write, dict_NoDup_del, Hnd.
      - apply dict_get_del_eq. }
    split; [|by apply delete_character_absent].
    destruct Habs as (d' & Hread' & Hget').
    by rewrite (get_character_read _ _ _ Hread'), Hget'.
Qed.

Lemma unknown_identity_witness :
  absent Reference.fox_world "no-such-id" /\
  create_character_variation (Reference.env_with Reference.unseeded_backend)
    "no-such-id" (Some "sitting") None None Reference.fox_world
  = (Raise (HTTPException 404 "Character not found"), Reference.fox_world) /\
  exists w1,
    delete_character (Reference.env_with Reference.unseeded_backend)
      Reference.fox_id Reference.fox_world = (Ok true, w1) /\
    get_character Reference.fox_id w1 = (Ok None, w1).
Proof.
  assert (Habs : absent Reference.fox_world "no-such-id").
  { eexists. split; reflexivity. }
  split; [exact Habs|]. split.
  - exact (proj2 (proj2 (proj1 (unknown_identity
             (Reference.env_with Reference.unseeded_backend)
             (Reference.env_with Reference.unseeded_backend)
             Reference.fox_world "no-such-id" (Some "sitting") None None) Habs))).
  - eexists. split; [vm_compute; reflexivity|].
    apply (unknown_identity
             (Reference.env_with Reference.unseeded_backend)
             (Reference.env_with Reference.unseeded_backend)
             Reference.fox_world Reference.fox_id None None None).
    vm_compute; reflexivity.
Defined.

(** ** Statements about the generation workflow *)

Section GenerationRequests.
Context `{HU : UuidLib} `{HP : !Pydantic}.

(** The backend requests of one call: the seeded one, then at most the
    unseeded retry. *)
Lemma generate_backend_requests env c vp w s :
  fst (determine_seed env c vp) = Some s ->
  backend_requests (snd (generate_character_image env c vp w))
  = backend_requests w
    ++ mk_request (create_prompt c vp) (Some s)
       :: (if retry_needed env (create_prompt c vp) s
           then [mk_request (create_prompt c vp) None] else []).
Proof.
  intros Hs. rewrite generate_character_image_stages, Hs, request_image_seeded.
  unfold retry_needed.
  assert (Hfin : forall (r : ImagesResponse) w1,
    backend_requests
      (snd (try_except (download_and_save env (snd (determine_seed env c vp)) vp r)
              (fun _ => raise GENERATION_FAILED) w1)) = backend_requests w1).
  { intros r w1. unfold try_except, raise.
    destruct (download_and_save _ _ _ _ w1) as [[x|e] w2] eqn:Hd;
      by apply download_and_save_frame in Hd as [_ Hd]. }
  destruct (images_generate env (mk_request _ (Some s))) as [r|e].
  - by rewrite Hfin, backend_requests_add_generate.
  - destruct (seed_unsupported e).
    + destruct (images_generate env (mk_request _ None)) as [r|e'].
      * rewrite Hfin, !backend_requests_add_generate. by rewrite <- app_assoc.
      * simpl. rewrite !backend_requests_add_generate. by rewrite <- app_assoc.
    + simpl. by rewrite backend_requests_add_generate.
Qed.

End GenerationRequests.

(** C9. A generation with variation attributes for a character whose
    [image_seed] is [None] leaves the local [seed] unassigned and fails with
    the generation failure before anything is sent: the world comes back as
    it was, with no backend request, no download and no file written.  The
    same holds for [create_character_variation] on a stored character
    without a seed. *)
Theorem variation_without_seed `{HU : UuidLib} `{HP : !Pydantic}
    (env : Env) (c : Character) (vp : option (list (string * string)))
    (w : World) :
  params_truthy vp = true ->
  image_seed c = None ->
  fst (determine_seed env c vp) = None /\
  generate_character_image env c vp w = (Raise GENERATION_FAILED, w) /\
  (forall p e s,
     get_character (id c) w = (Ok (Some c), w) ->
     PyDict.truthy (active_params [("pose", p); ("expression", e); ("setting", s)])
       = true ->
     create_character_variation env (id c) p e s w = (Raise GENERATION_FAILED, w)).
Proof.
  intros Hvp Hseed.
  assert (Hgen : forall vp', params_truthy vp' = true ->
            generate_character_image env c vp' w = (Raise GENERATION_FAILED, w)).
  { intros vp' Hvp'.
    by rewrite generate_character_image_stages,
      (determine_seed_unset env c vp' Hvp' Hseed). }
  split_and!.
  - by rewrite (determine_seed_unset env c vp Hvp Hseed).
  - by apply Hgen.
  - intros p e s Hget Hact. unfold create_character_variation. munfold.
    rewrite Hget, Hact. simpl. by rewrite Hgen.
Qed.

Lemma variation_without_seed_witness :
  generate_character_image (Reference.env_with (Reference.seeded_backend None))
    (set_image_seed None Reference.fox) (Some [("pose", "sitting")])
    Reference.fox_world
  = (Raise GENERATION_FAILED, Reference.fox_world).
Proof.
  exact (proj1 (proj2 (variation_without_seed
           (Reference.env_with (Reference.seeded_backend None))
           (set_image_seed None Reference.fox) (Some [("pose", "sitting")])
           Reference.fox_world eq_refl eq_refl))).
Defined.

(** C3. A generation call that has a seed sends the seeded request first.
    When the backend answers it, the call goes on with that response and
    no other request is made.  When it raises the [TypeError] that says the
    [seed] keyword is unexpected, exactly one more request is sent, without
    the seed, and the call goes on with its response, or fails with the
    generation failure if that request raises too.  When it raises anything
    else, the call fails with the generation failure and nothing more is
    sent. *)
Theorem seed_capability_fallback `{HU : UuidLib} `{HP : !Pydantic}
    (env : Env) (c : Character) (vp : option (list (string * string)))
    (w : World) (s : Z) :
  fst (determine_seed env c vp) = Some s ->
  let seeded := mk_request (create_prompt c vp) (Some s) in
  let unseeded := mk_request (create_prompt c vp) None in
  let go_on := fun response =>
    try_except (download_and_save env (snd (determine_seed env c vp)) vp response)
      (fun _ => raise GENERATION_FAILED) in
  let out := generate_character_image env c vp w in
  match images_generate env seeded with
  | Ok response =>
      out = go_on response (add_call (ImagesGenerate seeded) w) /\
      backend_requests (snd out) = backend_requests w ++ [seeded]
  | Raise e =>
      if seed_unsupported e then
        backend_requests (snd out) = backend_requests w ++ [seeded; unseeded] /\
        match images_generate env unseeded with
        | Ok response =>
            out = go_on response
                    (add_call (ImagesGenerate unseeded)
                       (add_call (ImagesGenerate seeded) w))
        | Raise _ =>
            out = (Raise GENERATION_FAILED,
                   add_call (ImagesGenerate unseeded)
                     (add_call (ImagesGenerate seeded) w))
        end
      else
        out = (Raise GENERATION_FAILED, add_call (ImagesGenerate seeded) w) /\
        backend_requests (snd out) = backend_requests w ++ [seeded]
  end.
Proof.
  intros Hs seeded unseeded go_on out.
  pose proof (generate_backend_requests env c vp w s Hs) as Hreq.
  pose proof (generate_character_image_stages env c vp w) as Hst.
  rewrite Hs, request_image_seeded in Hst.
  unfold retry_needed in Hreq. fold seeded unseeded out in Hreq, Hst.
  destruct (images_generate env seeded) as [response|e]; [done|].
  destruct (seed_unsupported e); [|done].
  split; [done|].
  by destruct (images_generate env unseeded).
Qed.

Lemma seed_capability_fallback_witness :
  fst (determine_seed (Reference.env_with Reference.unseeded_backend)
         Reference.fox (Some [("pose", "sitting")])) = Some 42 /\
  backend_requests
    (snd (generate_character_image (Reference.env_with Reference.unseeded_backend)
            Reference.fox (Some [("pose", "sitting")]) Reference.fox_world))
  = [mk_request (create_prompt Reference.fox (Some [("pose", "sitting")])) (Some 42);
     mk_request (create_prompt Reference.fox (Some [("pose", "sitting")])) None].
Proof.
  split; [reflexivity|].
  exact (proj1 (seed_capability_fallback
           (Reference.env_with Reference.unseeded_backend)
           Reference.fox (Some [("pose", "sitting")]) Reference.fox_world 42
           eq_refl)).
Defined.

Section CreationFacts.
Context `{HU : UuidLib} `{HP : !Pydantic}.

(** A generation that returns a path has passed every step. *)
Lemma generate_character_image_Ok_steps env c vp w path c' w' :
  generate_character_image env c vp w = (Ok (path, c'), w') ->
  ~ generation_fails env c vp w /\ ~ download_fails env c vp w /\
  ~ asset_write_fails env.
Proof.
  intros Hgen.
  apply generate_character_image_Ok in Hgen as (response & w1 & Hreq & Hd).
  apply download_and_save_Ok in Hd
    as (first & rest & url & image_data & Hdata & Hurl & Htruthy & Hget
        & Hmk & Hwr & _).
  split_and!.
  - unfold generation_fails. rewrite Hreq; simpl. rewrite Hdata, Hurl; simpl.
    congruence.
  - intros (r & f & rs & u & e & Hreq' & Hdata' & Hurl' & Hget').
    rewrite Hreq in Hreq'; simpl in Hreq'. congruence.
  - intros [H|H]; congruence.
Qed.

Lemma create_character_generation_raises env character_data w e w' :
  generate_character_image env (new_Character env character_data) None w
    = (Raise e, w') ->
  create_character env character_data w = (Raise GENERATION_FAILED, w').
Proof.
  intros Hgen. pose proof (generate_character_image_Raise _ _ _ _ _ _ Hgen) as ->.
  unfold create_character. munfold. by rewrite Hgen.
Qed.

End CreationFacts.

(** C5. When the generation step, the download step or the asset-write
    step of a character creation fails, [create_character] raises the
    generation failure and the storage file is left as it was: no record is
    saved. *)
Theorem create_character_aborts `{HU : UuidLib} `{HP : !Pydantic}
    (env : Env) (character_data : CharacterCreate) (w : World) :
  generation_fails env (new_Character env character_data) None w \/
  download_fails env (new_Character env character_data) None w \/
  asset_write_fails env ->
  exists w',
    create_character env character_data w = (Raise GENERATION_FAILED, w') /\
    storage w' = storage w.
Proof.
  intros Hfail.
  destruct (generate_character_image env (new_Character env character_data) None w)
    as [[[path c']|e] w'] eqn:Hgen.
  - apply generate_character_image_Ok_steps in Hgen as (Hg & Hd & Ha). tauto.
  - exists w'. split.
    + by apply (create_character_generation_raises _ _ _ e).
    + by apply generate_character_image_frame in Hgen.
Qed.

Lemma create_character_aborts_witness :
  asset_write_fails
    {| images_generate := Reference.seeded_backend None;
       http_get := fun _ => Ok Reference.png;
       randint := 123456; uuid4 := Reference.fox_id;
       now_created_at := 1000; now_updated_at := 1000;
       now_generated_at := 2000; now_timestamp := "20240101120500000000";
       now_store := 2001; storage_write_ok := true; makedirs_ok := true;
       image_write_ok := false; rmtree_ok := true; storage_write_fault := OpenFails;
       image_write_fault := OpenFails; rmtree_removed := fun _ => false |} /\
  exists w',
    create_character
      {| images_generate := Reference.seeded_backend None;
         http_get := fun _ => Ok Reference.png;
         randint := 123456; uuid4 := Reference.fox_id;
         now_created_at := 1000; now_updated_at := 1000;
         now_generated_at := 2000; now_timestamp := "20240101120500000000";
         now_store := 2001; storage_write_ok := true; makedirs_ok := true;
         image_write_ok := false; rmtree_ok := true; storage_write_fault := OpenFails;
         image_write_fault := OpenFails; rmtree_removed := fun _ => false |}
      {| cc_description := "a red fox wearing a blue scarf"; cc_name := None |}
      (set_storage FileMissing Reference.fox_world)
    = (Raise GENERATION_FAILED, w') /\
    storage w' = FileMissing.
Proof.
  split; [right; reflexivity|].
  apply (create_character_aborts _
           {| cc_description := "a red fox wearing a blue scarf"; cc_name := None |}
           (set_storage FileMissing Reference.fox_world)).
  right. right. right. reflexivity.
Defined.

Section SeedFacts.
Context `{HU : UuidLib} `{HP : !Pydantic}.

(** The response the request stage returns is the backend's answer to the
    last request sent. *)
Lemma request_image_Ok env prompt seed w response w1 :
  request_image env prompt seed w = (Ok response, w1) ->
  exists s request,
    seed = Some s /\
    last (backend_requests w1) = Some request /\
    images_generate env request = Ok response.
Proof.
  destruct seed as [s|]; [|by rewrite request_image_unbound].
  rewrite request_image_seeded.
  destruct (images_generate env (mk_request prompt (Some s))) as [r|e] eqn:H1.
  - intros [= <- <-]. exists s, (mk_request prompt (Some s)).
    by rewrite backend_requests_add_generate, last_snoc.
  - destruct (seed_unsupported e); [|done].
    destruct (images_generate env (mk_request prompt None)) as [r|e'] eqn:H2; [|done].
    intros [= <- <-]. exists s, (mk_request prompt None).
    by rewrite backend_requests_add_generate, last_snoc.
Qed.

Lemma determine_seed_Some env c vp s :
  fst (determine_seed env c vp) = Some s ->
  (if params_truthy vp then image_seed c = Some s else s = randint env) /\
  set_image_seed (image_seed c) (snd (determine_seed env c vp)) = c /\
  (if params_truthy vp then snd (determine_seed env c vp) = c
   else snd (determine_seed env c vp) = set_image_seed (Some (randint env)) c).
Proof.
  unfold determine_seed. destruct (params_truthy vp); simpl.
  - destruct (image_seed c) as [s0|] eqn:Hs; simpl; [|done].
    intros [= <-]. split_and!; try done. destruct c; simpl in *. by subst.
  - intros [= <-]. split_and!; try done. by destruct c.
Qed.







End SeedFacts.




(** ** Statements about prompt synthesis *)

Section PromptFacts.
Context `{HU : UuidLib}.

Lemma string_app_nil_r (s : string) : s +:+ "" = s.
Proof. induction s as [|a s IH]; [done|]. unfold String.append; fold String.append. by rewrite IH. Qed.

Lemma string_app_assoc (s1 s2 s3 : string) :
  (s1 +:+ s2) +:+ s3 = s1 +:+ (s2 +:+ s3).
Proof.
  induction s1 as [|a s1 IH]; [done|].
  unfold String.append; fold String.append. by rewrite IH.
Qed.

Lemma append_attribute_text d key label base_prompt :
  append_attribute d key label base_prompt
  = base_prompt +:+ attribute_text label (present_attribute (Some d) key).
Proof.
  unfold append_attribute, present_attribute, attribute_text, opt_str_truthy.
  destruct (PyDict.get key d) as [v|]; simpl.
  - destruct (str_truthy v); [done | by rewrite string_app_nil_r].
  - by rewrite string_app_nil_r.
Qed.

Lemma present_attribute_falsy vp key :
  params_truthy vp = false -> present_attribute vp key = None.
Proof. by destruct vp as [[|? ?]|]. Qed.

End PromptFacts.

(** C7. The prompt is the fixed opening, the first eight characters of the
    identifier's text, the description, then the texts of the present
    attributes in the order pose, expression, setting (an absent or empty
    attribute adds nothing), then the fixed closing instruction.  It is
    therefore the same for any two calls that agree on description,
    identifier and present attributes, whatever the other fields of the
    character and the other keys or the key order of the dictionary. *)
Theorem create_prompt_spec `{HU : UuidLib}
    (c : Character) (vp : option (list (string * string))) :
  create_prompt c vp
  = PROMPT_OPENING +:+ String.substring 0 8 (uuid_str (id c)) +:+ PROMPT_PORTRAIT
    +:+ description c
    +:+ attribute_text "Pose" (present_attribute vp "pose")
    +:+ attribute_text "Expression" (present_attribute vp "expression")
    +:+ attribute_text "Setting" (present_attribute vp "setting")
    +:+ PROMPT_CLOSING
  /\
  (forall c2 vp2,
     description c2 = description c -> id c2 = id c ->
     present_attribute vp2 "pose" = present_attribute vp "pose" ->
     present_attribute vp2 "expression" = present_attribute vp "expression" ->
     present_attribute vp2 "setting" = present_attribute vp "setting" ->
     create_prompt c2 vp2 = create_prompt c vp).
Proof.
  assert (Hform : forall c0 vp0,
    create_prompt c0 vp0
    = PROMPT_OPENING +:+ String.substring 0 8 (uuid_str (id c0)) +:+ PROMPT_PORTRAIT
      +:+ description c0
      +:+ attribute_text "Pose" (present_attribute vp0 "pose")
      +:+ attribute_text "Expression" (present_attribute vp0 "expression")
      +:+ attribute_text "Setting" (present_attribute vp0 "setting")
      +:+ PROMPT_CLOSING).
  { intros c0 vp0. unfold create_prompt.
    destruct (params_truthy vp0) eqn:Hvp.
    - destruct vp0 as [d|]; [|done]. simpl in Hvp. rewrite Hvp.
      rewrite !append_attribute_text. by rewrite !string_app_assoc.
    - rewrite !(present_attribute_falsy vp0) by done.
      assert (Hbase : match vp0 with
                | Some d => if PyDict.truthy d
                            then append_attribute d "setting" "Setting"
                                   (append_attribute d "expression" "Expression"
                                      (append_attribute d "pose" "Pose"
                                         (PROMPT_OPENING
                                          +:+ String.substring 0 8 (uuid_str (id c0))
                                          +:+ PROMPT_PORTRAIT +:+ description c0)))
                            else PROMPT_OPENING
                                 +:+ String.substring 0 8 (uuid_str (id c0))
                                 +:+ PROMPT_PORTRAIT +:+ description c0
                | None => PROMPT_OPENING
                          +:+ String.substring 0 8 (uuid_str (id c0))
                          +:+ PROMPT_PORTRAIT +:+ description c0
                end
              = PROMPT_OPENING +:+ String.substring 0 8 (uuid_str (id c0))
                +:+ PROMPT_PORTRAIT +:+ description c0).
      { destruct vp0 as [d|]; [|done]. simpl in Hvp. by rewrite Hvp. }
      rewrite Hbase. unfold attribute_text.
      by rewrite !string_app_assoc. }
  split; [apply Hform|].
  intros c2 vp2 Hd Hi Hp He Hs. rewrite !Hform. congruence.
Qed.

Lemma create_prompt_spec_witness :
  create_prompt Reference.fox (Some [("setting", "forest"); ("pose", "sitting")])
  = create_prompt (set_image_seed None Reference.fox)
      (Some [("pose", "sitting"); ("expression", ""); ("setting", "forest")]).
Proof.
  symmetry.
  exact (proj2 (create_prompt_spec Reference.fox
                  (Some [("setting", "forest"); ("pose", "sitting")]))
           (set_image_seed None Reference.fox)
           (Some [("pose", "sitting"); ("expression", ""); ("setting", "forest")])
           eq_refl eq_refl eq_refl eq_refl eq_refl).
Defined.

(** ** Statements about the endpoints *)

Section VariationFacts.
Context `{HU : UuidLib} `{HP : !Pydantic}.

(** A generation changes no field of the character but [image_seed]. *)
Lemma generate_character_image_Ok_fields env c vp w path c' w' :
  generate_character_image env c vp w = (Ok (path, c'), w') ->
  set_image_seed (image_seed c) c' = c.
Proof.
  intros Hgen.
  apply generate_character_image_Ok in Hgen as (response & w1 & Hreq & Hd).
  apply download_and_save_Ok in Hd
    as (first & rest & url & image_data & _ & _ & _ & _ & _ & _ & -> & _).
  apply request_image_Ok in Hreq as (s & request & Hs & _).
  destruct (determine_seed_Some env c vp s Hs) as (_ & Hrest & _).
  unfold adopt_seed. by destruct (img_seed first).
Qed.

Lemma update_character_Some env c w c' w' :
  update_character env c w = (Ok (Some c'), w') ->
  c' = set_updated_at (now_store env) c.
Proof.
  unfold update_character. munfold.
  destruct (_read_storage w) as [[d|e] w0]; [|done].
  destruct (negb (PyDict.contains (id c) d)); [done|].
  destruct (_write_storage env _ w0) as [[[]|e] w1]; [|done].
  by intros [= <- _].
Qed.

Lemma active_params_get p e s :
  PyDict.get "pose" (active_params [("pose", p); ("expression", e); ("setting", s)]) = p /\
  PyDict.get "expression" (active_params [("pose", p); ("expression", e); ("setting", s)]) = e /\
  PyDict.get "setting" (active_params [("pose", p); ("expression", e); ("setting", s)]) = s.
Proof. by destruct p, e, s. Qed.

End VariationFacts.

(** C2, as the code has it.  On a stored character, a variation request
    whose three attributes are all absent ([None]) fails with 400 and
    leaves the world as it was; and every variation that
    [create_character_variation] appends carries the three attributes as
    they were passed, at least one of them not [None] (an empty string
    counts as passed). *)
Theorem variation_requires_attribute `{HU : UuidLib} `{HP : !Pydantic}
    (env : Env) (character_id : UUID) (p e s : option string)
    (w : World) (c : Character) :
  get_character character_id w = (Ok (Some c), w) ->
  (p = None -> e = None -> s = None ->
   create_character_variation env character_id p e s w
   = (Raise (HTTPException 400
        "At least one variation parameter (pose, expression, setting) must be provided"),
      w))
  /\
  (forall c' w',
     create_character_variation env character_id p e s w = (Ok c', w') ->
     exists v,
       variations c' = variations c ++ [v] /\
       pose v = p /\ expression v = e /\ setting v = s /\
       (p <> None \/ e <> None \/ s <> None)).
Proof.
  intros Hget. split.
  - intros -> -> ->. unfold create_character_variation. munfold.
    by rewrite Hget.
  - intros c' w'. unfold create_character_variation. munfold. rewrite Hget.
    destruct (active_params_get p e s) as (Hp & He & Hs).
    set (active := active_params [("pose", p); ("expression", e); ("setting", s)]) in *.
    destruct (PyDict.truthy active) eqn:Hact; cbn [negb]; [|done].
    destruct (generate_character_image env c (Some active) w)
      as [[[path c1]|e1] w1] eqn:Hgen; [|done].
    apply generate_character_image_Ok_fields in Hgen.
    destruct (negb (str_truthy path)); [done|].
    destruct (update_character env _ w1) as [[[c2|]|e2] w2] eqn:Hupd; try done.
    apply update_character_Some in Hupd. intros [= <- <-]. subst c2.
    eexists. split_and!.
    + cbn [variations set_updated_at variations_append]. by rewrite <- Hgen.
    + exact Hp.
    + exact He.
    + exact Hs.
    + destruct p, e, s; try (left; done); try (right; left; done);
        try (right; right; done).
Qed.

Lemma variation_requires_attribute_witness :
  get_character Reference.fox_id Reference.fox_world
  = (Ok (Some Reference.fox), Reference.fox_world) /\
  create_character_variation (Reference.env_with (Reference.seeded_backend None))
    Reference.fox_id None None None Reference.fox_world
  = (Raise (HTTPException 400
       "At least one variation parameter (pose, expression, setting) must be provided"),
     Reference.fox_world).
Proof.
  split; [reflexivity|].
  exact (proj1 (variation_requires_attribute
           (Reference.env_with (Reference.seeded_backend None))
           Reference.fox_id None None None Reference.fox_world Reference.fox
           eq_refl) eq_refl eq_refl eq_refl).
Defined.

(** C2, as stated, fails: a request whose only attribute is the empty
    string is not refused; it generates an image, appends a variation none
    of whose attributes is a non-empty string, and rewrites the stored
    record. *)
Lemma empty_attribute_accepted :
  stored Reference.fox_world Reference.fox /\
  exists c' w' v,
    create_character_variation
      (Reference.env_with (Reference.seeded_backend None))
      Reference.fox_id (Some "") None None Reference.fox_world
    = (Ok c', w') /\
    variations c' = [v] /\
    pose v = Some "" /\ expression v = None /\ setting v = None /\
    stored w' c' /\
    storage w' <> storage Reference.fox_world.
Proof.
  split; [eexists; split; reflexivity|].
  eexists _, _, _. split; [vm_compute; reflexivity|].
  split_and!; try reflexivity.
  - eexists; split; reflexivity.
  - discriminate.
Qed.

Section DeletionFacts.
Context `{HU : UuidLib} `{HP : !Pydantic}.

Lemma path_in_elem_of (p : path) (l : list path) : path_in p l = true <-> p ∈ l.
Proof.
  unfold path_in. induction l as [|q l IH]; simpl.
  - split; [done | by intros ?%elem_of_nil].
  - rewrite elem_of_cons, <- IH. destruct (bool_decide (p = q)) eqn:Hpq; simpl.
    + apply bool_decide_eq_true in Hpq. tauto.
    + apply bool_decide_eq_false in Hpq. tauto.
Qed.





End DeletionFacts.




(** ** Further properties: listing *)

Section ListingFacts.
Context `{HU : UuidLib} `{HP : !Pydantic}.
Implicit Types (c : Character) (l : list Character).






End ListingFacts.



(** ** Further properties: the storage file *)

Section FileFacts.
Context `{HU : UuidLib} `{HP : !Pydantic}.
Implicit Types (w : World) (c : Character) (d acc : list (UUID * Character)).





End FileFacts.



(** ** Further properties: store operations *)

Section StoreTransitions.
Context `{HU : UuidLib} `{HP : !Pydantic}.
Implicit Types (w : World) (c : Character) (d : list (UUID * Character)).

Lemma save_character_read env c w d :
  _read_storage w = (Ok d, w) ->
  storage_write_ok env = true ->
  exists w1,
    save_character env c w = (Ok (set_updated_at (now_store env) c), w1) /\
    _read_storage w1
    = (Ok (PyDict.set (id c) (set_updated_at (now_store env) c) d), w1) /\
    images w1 = images w /\ calls w1 = calls w.
Proof.
  intros Hread Hok. eexists. split; [by apply save_character_ok|].
  split; [|done].
  apply read_after_write, dict_NoDup_set, (read_storage_NoDup _ _ _ Hread).
Qed.

Lemma update_character_read env c w d :
  _read_storage w = (Ok d, w) ->
  PyDict.contains (id c) d = true ->
  storage_write_ok env = true ->
  exists w1,
    update_character env c w = (Ok (Some (set_updated_at (now_store env) c)), w1) /\
    _read_storage w1
    = (Ok (PyDict.set (id c) (set_updated_at (now_store env) c) d), w1) /\
    images w1 = images w /\ calls w1 = calls w.
Proof.
  intros Hread Hc Hok. eexists. split.
  - unfold update_character. munfold. rewrite Hread, Hc. simpl.
    by rewrite write_storage_ok.
  - split; [|done].
    apply read_after_write, dict_NoDup_set, (read_storage_NoDup _ _ _ Hread).
Qed.

(** A file the program wrote reads back as the dictionary written. *)
Lemma read_written w d :
  storage w = FileJsonObject (serialize d) ->
  NoDup (PyDict.keys d) ->
  _read_storage w = (Ok d, w).
Proof.
  intros Hst Hnd. pose proof (read_after_write w d Hnd) as Hread.
  replace (set_storage (FileJsonObject (serialize d)) w) with w in Hread; [done|].
  destruct w; simpl in *. by subst.
Qed.

Lemma rmtree_partly_keeps (removed : path -> bool) (character_dir : path) (fs : FS) :
  (forall p data,
     is_prefix character_dir p = false ->
     (p, data) ∈ files fs ->
     (p, data) ∈ files (rmtree_partly removed character_dir fs)) /\
  (forall p,
     is_prefix character_dir p = false ->
     p ∈ dirs fs -> p ∈ dirs (rmtree_partly removed character_dir fs)).
Proof.
  split.
  - intros p data Hpre Hin. unfold rmtree_partly; simpl.
    apply list_elem_of_filter. split; [|done]. simpl. by rewrite Hpre.
  - intros p Hpre Hin. unfold rmtree_partly; simpl.
    apply list_elem_of_filter. split; [|done]. by rewrite Hpre.
Qed.

(** What lies outside a removed directory stays. *)
Lemma rmtree_keeps (character_dir : path) (fs : FS) :
  (forall p data,
     is_prefix character_dir p = false ->
     (p, data) ∈ files fs -> (p, data) ∈ files (rmtree character_dir fs)) /\
  (forall p,
     is_prefix character_dir p = false ->
     p ∈ dirs fs -> p ∈ dirs (rmtree character_dir fs)).
Proof.
  split.
  - intros p data Hpre Hin. unfold rmtree; simpl.
    apply list_elem_of_filter. split; [|done]. simpl. by rewrite Hpre.
  - intros p Hpre Hin. unfold rmtree; simpl.
    apply list_elem_of_filter. split; [|done]. by rewrite Hpre.
Qed.

(** The directory-removal step of a deletion leaves what lies outside the
    character's directory, whether or not it fails. *)
Lemma after_rmtree_keeps env character_id w :
  (forall p data,
     is_prefix (IMAGE_STORAGE_PATH ++ [uuid_str character_id]) p = false ->
     (p, data) ∈ files (images w) ->
     (p, data) ∈ files (images (after_rmtree env character_id w))) /\
  (forall p,
     is_prefix (IMAGE_STORAGE_PATH ++ [uuid_str character_id]) p = false ->
     p ∈ dirs (images w) ->
     p ∈ dirs (images (after_rmtree env character_id w))).
Proof.
  unfold after_rmtree.
  destruct (path_exists _ (images w)); [|done].
  destruct (rmtree_ok env).
  - apply (rmtree_keeps (IMAGE_STORAGE_PATH ++ [uuid_str character_id]) (images w)).
  - apply (rmtree_partly_keeps (rmtree_removed env)
             (IMAGE_STORAGE_PATH ++ [uuid_str character_id]) (images w)).
Qed.

End StoreTransitions.



(** X4. On a storage file the program wrote, a [save_character] that can
    write concerns one record only: [get_character] for any other
    identifier returns, before and after, the record that was written
    under it, and neither the image tree nor the outside world is
    touched. *)
Theorem save_character_others `{HU : UuidLib} `{HP : !Pydantic}
    (env : Env) (w : World) (d : list (UUID * Character)) (c : Character)
    (k : UUID) :
  storage w = FileJsonObject (serialize d) ->
  NoDup (PyDict.keys d) ->
  storage_write_ok env = true ->
  k <> id c ->
  exists saved w1,
    save_character env c w = (Ok saved, w1) /\
    get_character k w = (Ok (PyDict.get k d), w) /\
    get_character k w1 = (Ok (PyDict.get k d), w1) /\
    images w1 = images w /\ calls w1 = calls w.
Proof.
  intros Hst Hnd Hok Hne.
  pose proof (read_written w d Hst Hnd) as Hread.
  destruct (save_character_read env c w d Hread Hok) as (w1 & Hsave & Hread1 & Hrest).
  eexists _, w1. split; [exact Hsave|].
  split; [by apply get_character_read|]. split; [|done].
  rewrite (get_character_read _ _ _ Hread1). by rewrite dict_get_set_ne.
Qed.

Lemma save_character_others_witness :
  exists saved w1,
    save_character (Reference.env_with Reference.unseeded_backend)
      (set_image_seed (Some 7) Reference.fox) Reference.fox_world = (Ok saved, w1) /\
    get_character Reference.other_id Reference.fox_world
    = (Ok (PyDict.get Reference.other_id [(Reference.fox_id, Reference.fox)]),
       Reference.fox_world) /\
    get_character Reference.other_id w1
    = (Ok (PyDict.get Reference.other_id [(Reference.fox_id, Reference.fox)]), w1) /\
    images w1 = images Reference.fox_world /\ calls w1 = calls Reference.fox_world.
Proof.
  apply (save_character_others (Reference.env_with Reference.unseeded_backend)
           Reference.fox_world [(Reference.fox_id, Reference.fox)]
           (set_image_seed (Some 7) Reference.fox) Reference.other_id);
    [reflexivity | apply NoDup_singleton | reflexivity | discriminate].
Defined.

(** X5. [update_character] never creates a record: for an identifier the
    store does not hold it returns [None] and changes nothing.  On a
    storage file the program wrote, for a stored identifier and a store
    that can be written, it replaces the record by the one passed with
    [updated_at] refreshed, which [get_character] then returns, and every
    other identifier still has the record that was written under it. *)
Theorem update_character_spec `{HU : UuidLib} `{HP : !Pydantic}
    (env : Env) (w : World) (c : Character) :
  (absent w (id c) -> update_character env c w = (Ok None, w))
  /\
  (forall d old,
     storage w = FileJsonObject (serialize d) ->
     NoDup (PyDict.keys d) ->
     PyDict.get (id c) d = Some old ->
     storage_write_ok env = true ->
     exists w1,
       update_character env c w
       = (Ok (Some (set_updated_at (now_store env) c)), w1) /\
       get_character (id c) w1
       = (Ok (Some (set_updated_at (now_store env) c)), w1) /\
       (forall k, k <> id c ->
          get_character k w1 = (Ok (PyDict.get k d), w1)) /\
       images w1 = images w /\ calls w1 = calls w).
Proof.
  split; [apply update_character_absent|].
  intros d old Hst Hnd Hget Hok.
  pose proof (read_written w d Hst Hnd) as Hread.
  destruct (update_character_read env c w d Hread (dict_contains_true _ _ _ Hget) Hok)
    as (w1 & Hupd & Hread1 & Hrest).
  exists w1. split; [exact Hupd|]. split_and!; try apply Hrest.
  - by rewrite (get_character_read _ _ _ Hread1), dict_get_set_eq.
  - intros k Hne.
    rewrite (get_character_read _ _ _ Hread1). by rewrite dict_get_set_ne.
Qed.

Lemma update_character_spec_witness :
  update_character (Reference.env_with Reference.unseeded_backend)
    Reference.fox (set_storage FileMissing Reference.fox_world)
  = (Ok None, set_storage FileMissing Reference.fox_world) /\
  exists w1,
    update_character (Reference.env_with Reference.unseeded_backend)
      (set_image_seed (Some 7) Reference.fox) Reference.fox_world
    = (Ok (Some (set_updated_at 2001 (set_image_seed (Some 7) Reference.fox))), w1) /\
    get_character Reference.fox_id w1
    = (Ok (Some (set_updated_at 2001 (set_image_seed (Some 7) Reference.fox))), w1).
Proof.
  split.
  - apply (update_character_spec (Reference.env_with Reference.unseeded_backend)
             (set_storage FileMissing Reference.fox_world) Reference.fox).
    eexists. split; reflexivity.
  - destruct (proj2 (update_character_spec
                (Reference.env_with Reference.unseeded_backend)
                Reference.fox_world (set_image_seed (Some 7) Reference.fox))
              [(Reference.fox_id, Reference.fox)] Reference.fox
              eq_refl (NoDup_singleton _) eq_refl eq_refl)
      as (w1 & Hupd & Hget & _).
    exists w1. by split.
Defined.

(** X6. On a storage file the program wrote, a [delete_character] of a
    stored record that can write removes that record and nothing but what
    lies below its image directory: every other identifier still has the
    record that was written under it, every file and directory outside the
    character's directory is still there, whether or not the removal of
    the directory failed, and nothing is sent to the outside world. *)
Theorem delete_character_others `{HU : UuidLib} `{HP : !Pydantic}
    (env : Env) (w : World) (d : list (UUID * Character))
    (character_id : UUID) (c : Character) :
  storage w = FileJsonObject (serialize d) ->
  NoDup (PyDict.keys d) ->
  PyDict.get character_id d = Some c ->
  storage_write_ok env = true ->
  exists w1,
    delete_character env character_id w = (Ok true, w1) /\
    get_character character_id w1 = (Ok None, w1) /\
    (forall k, k <> character_id ->
       get_character k w1 = (Ok (PyDict.get k d), w1)) /\
    (forall p data,
       is_prefix (IMAGE_STORAGE_PATH ++ [uuid_str character_id]) p = false ->
       (p, data) ∈ files (images w) -> (p, data) ∈ files (images w1)) /\
    (forall p,
       is_prefix (IMAGE_STORAGE_PATH ++ [uuid_str character_id]) p = false ->
       p ∈ dirs (images w) -> p ∈ dirs (images w1)) /\
    calls w1 = calls w.
Proof.
  intros Hst Hnd Hget Hok.
  pose proof (read_written w d Hst Hnd) as Hread.
  destruct (delete_character_read env character_id w d Hread
              (dict_contains_true _ _ _ Hget) Hok)
    as (w1 & Hdel & Hread1 & Hcalls & Himg).
  exists w1. split; [exact Hdel|].
  destruct (after_rmtree_keeps env character_id w) as [Hfiles Hdirs].
  split_and!; [| | | |done].
  - by rewrite (get_character_read _ _ _ Hread1), dict_get_del_eq.
  - intros k Hne.
    rewrite (get_character_read _ _ _ Hread1). by rewrite dict_get_del_ne.
  - intros p data Hpre Hin. rewrite Himg. by apply Hfiles.
  - intros p Hpre Hin. rewrite Himg. by apply Hdirs.
Qed.

Lemma delete_character_others_witness :
  exists w1,
    delete_character (Reference.env_with Reference.unseeded_backend)
      Reference.fox_id Reference.fox_world = (Ok true, w1) /\
    IMAGE_STORAGE_PATH ∈ dirs (images w1).
Proof.
  destruct (delete_character_others (Reference.env_with Reference.unseeded_backend)
              Reference.fox_world [(Reference.fox_id, Reference.fox)]
              Reference.fox_id Reference.fox
              eq_refl (NoDup_singleton _) eq_refl eq_refl)
    as (w1 & Hdel & _ & _ & _ & Hdirs & _).
  exists w1. split; [exact Hdel|].
  apply Hdirs; [reflexivity|]. right. left.
Defined.

(** X7. When the storage file cannot be written, [save_character],
    [update_character] and [delete_character] raise 500 "Failed to save
    character data.".  If it is [open] that failed, the storage file is as
    it was; if the write failed after the file was opened, the file has
    been emptied and is no longer JSON, so that the store then reads as
    empty and every record is lost.  In both cases [delete_character] has
    run its directory-removal step before, so the images may be gone while
    the deletion reports a failure. *)
Theorem unwritable_store `{HU : UuidLib} `{HP : !Pydantic}
    (env : Env) (w : World) (c : Character) :
  readable (storage w) = true ->
  storage_write_ok env = false ->
  save_character env c w
  = (Raise (HTTPException 500 "Failed to save character data."),
     after_failed_write (storage_write_fault env) w)
  /\
  (forall old,
     get_character (id c) w = (Ok (Some old), w) ->
     update_character env c w
     = (Raise (HTTPException 500 "Failed to save character data."),
        after_failed_write (storage_write_fault env) w)
     /\
     delete_character env (id c) w
     = (Raise (HTTPException 500 "Failed to save character data."),
        after_failed_write (storage_write_fault env) (after_rmtree env (id c) w)))
  /\
  (forall w0, storage_write_fault env = OpenFails ->
     after_failed_write (storage_write_fault env) w0 = w0)
  /\
  (forall w0 written k,
     storage_write_fault env = WriteFails written ->
     storage (after_failed_write (storage_write_fault env) w0) = FileNotJson /\
     get_character k (after_failed_write (storage_write_fault env) w0)
     = (Ok None, after_failed_write (storage_write_fault env) w0)).
Proof.
  intros Hreadable Hno.
  destruct (read_storage_readable w Hreadable) as [d Hread].
  split_and!.
  - unfold save_character. munfold. rewrite Hread. simpl.
    by rewrite write_storage_fails.
  - intros old Hget.
    pose proof (get_character_read (id c) w d Hread) as Hget'.
    rewrite Hget in Hget'. injection Hget' as Hold. symmetry in Hold.
    pose proof (dict_contains_true _ _ _ Hold) as Hc.
    split.
    + unfold update_character. munfold. rewrite Hread, Hc. simpl.
      by rewrite write_storage_fails.
    + by rewrite (delete_character_stages _ _ _ _ Hread Hc), write_storage_fails.
  - by intros w0 ->.
  - intros w0 written k ->. by split.
Qed.

Lemma unwritable_store_witness :
  save_character Reference.truncating_env Reference.fox Reference.fox_world
  = (Raise (HTTPException 500 "Failed to save character data."),
     set_storage FileNotJson Reference.fox_world) /\
  get_character Reference.fox_id (set_storage FileNotJson Reference.fox_world)
  = (Ok None, set_storage FileNotJson Reference.fox_world).
Proof.
  split.
  - exact (proj1 (unwritable_store Reference.truncating_env Reference.fox_world
                    Reference.fox eq_refl eq_refl)).
  - exact (proj2 (proj2 (proj2 (proj2 (unwritable_store Reference.truncating_env
                    Reference.fox_world Reference.fox eq_refl eq_refl)))
                  Reference.fox_world 0%nat Reference.fox_id eq_refl)).
Defined.

Section KeyingFacts.
Context `{HU : UuidLib} `{HP : !Pydantic}.
Implicit Types (c : Character) (d : list (UUID * Character)).

Lemma keyed_by_id_set c d :
  keyed_by_id d -> keyed_by_id (PyDict.set (id c) c d).
Proof.
  intros Hd k x. destruct (decide (id c = k)) as [<-|Hne].
  - rewrite dict_get_set_eq. by intros [= <-].
  - rewrite dict_get_set_ne by done. apply Hd.
Qed.

Lemma keyed_by_id_del k0 d : keyed_by_id d -> keyed_by_id (PyDict.del k0 d).
Proof.
  intros Hd k x. destruct (decide (k0 = k)) as [<-|Hne].
  - by rewrite dict_get_del_eq.
  - rewrite dict_get_del_ne by done. apply Hd.
Qed.

End KeyingFacts.

(** X8. The store operations keep every record under its own identifier:
    when that holds of the dictionary read from the file, it holds of the
    dictionary read after a [save_character], after an [update_character]
    of a stored record and after a [delete_character] of a stored
    record. *)
Theorem store_keeps_keying `{HU : UuidLib} `{HP : !Pydantic}
    (env : Env) (w : World) (d : list (UUID * Character)) (c : Character)
    (character_id : UUID) :
  _read_storage w = (Ok d, w) ->
  keyed_by_id d ->
  storage_write_ok env = true ->
  (exists r w1 d1,
     save_character env c w = (Ok r, w1) /\
     _read_storage w1 = (Ok d1, w1) /\ keyed_by_id d1)
  /\
  (PyDict.contains (id c) d = true ->
   exists r w1 d1,
     update_character env c w = (Ok (Some r), w1) /\
     _read_storage w1 = (Ok d1, w1) /\ keyed_by_id d1)
  /\
  (PyDict.contains character_id d = true ->
   exists w1 d1,
     delete_character env character_id w = (Ok true, w1) /\
     _read_storage w1 = (Ok d1, w1) /\ keyed_by_id d1).
Proof.
  intros Hread Hkey Hok. split_and!.
  - destruct (save_character_read env c w d Hread Hok) as (w1 & Hs & Hr & _).
    eexists _, w1, _. split_and!; [exact Hs | exact Hr |].
    by apply (keyed_by_id_set (set_updated_at (now_store env) c)).
  - intros Hc.
    destruct (update_character_read env c w d Hread Hc Hok) as (w1 & Hs & Hr & _).
    eexists _, w1, _. split_and!; [exact Hs | exact Hr |].
    by apply (keyed_by_id_set (set_updated_at (now_store env) c)).
  - intros Hc.
    destruct (delete_character_read env character_id w d Hread Hc Hok)
      as (w1 & Hs & Hr & _).
    eexists w1, _. split_and!; [exact Hs | exact Hr |].
    by apply keyed_by_id_del.
Qed.

Lemma store_keeps_keying_witness :
  exists r w1 d1,
    save_character (Reference.env_with Reference.unseeded_backend)
      Reference.fox Reference.fox_world = (Ok r, w1) /\
    _read_storage w1 = (Ok d1, w1) /\ keyed_by_id d1.
Proof.
  apply (store_keeps_keying (Reference.env_with Reference.unseeded_backend)
           Reference.fox_world [(Reference.fox_id, Reference.fox)]
           Reference.fox Reference.fox_id); [reflexivity | | reflexivity].
  intros k x. simpl. case_decide as Hk; [|discriminate].
  intros [= <-]. by rewrite Hk.
Defined.

(** ** Further properties: generated assets *)

Section AssetFacts.
Context `{HU : UuidLib} `{HP : !Pydantic}.
Implicit Types (w : World) (c : Character) (vp : option (list (string * string))).

Lemma id_adopt_seed first c : id (adopt_seed first c) = id c.
Proof. unfold adopt_seed. by destruct (img_seed first). Qed.

Lemma id_determine_seed env c vp : id (snd (determine_seed env c vp)) = id c.
Proof.
  unfold determine_seed.
  destruct (params_truthy vp), (bool_decide (image_seed c <> None)); done.
Qed.

Lemma asset_file_id env c c0 vp : id c0 = id c -> asset_file env c0 vp = asset_file env c vp.
Proof. unfold asset_file, asset_folder. by intros ->. Qed.

Lemma asset_reference_relpath env c vp :
  join_path (relpath (asset_file env c vp) STATIC_FILES_DIR)
  = asset_reference env c vp.
Proof.
  unfold asset_file, asset_folder, asset_reference. by destruct (params_truthy vp).
Qed.


Lemma request_image_images env prompt seed w r w1 :
  request_image env prompt seed w = (r, w1) -> images w1 = images w.
Proof.
  destruct seed as [s|].
  - rewrite request_image_seeded.
    destruct (images_generate env _) as [?|e]; [by intros [= _ <-]|].
    destruct (seed_unsupported e); by intros [= _ <-].
  - rewrite request_image_unbound. by intros [= _ <-].
Qed.


End AssetFacts.



(** ** Further properties: the endpoints when every step succeeds *)

Section SuccessFacts.
Context `{HU : UuidLib} `{HP : !Pydantic}.
Implicit Types (w : World) (c : Character) (vp : option (list (string * string))).

Lemma download_and_save_succeeds env c vp response w first rest url image_data :
  data response = first :: rest ->
  img_url first = Some url -> str_truthy url = true ->
  http_get env url = Ok image_data ->
  makedirs_ok env = true -> image_write_ok env = true ->
  exists w',
    download_and_save env c vp response w
    = (Ok (asset_reference env c vp, adopt_seed first c), w') /\
    storage w' = storage w /\
    images w'
    = write_file (asset_file env c vp) image_data
        (makedirs (asset_folder c vp) (images w)).
Proof.
  intros Hdata Hurl Htruthy Hget Hmk Hwr.
  unfold download_and_save, async_client_get. munfold.
  rewrite Hdata. simpl. rewrite Hurl. simpl. rewrite Htruthy. simpl.
  rewrite Hget, Hmk, Hwr. simpl.
  eexists. split; [apply (f_equal2 pair); [|reflexivity]|].
  - rewrite <- asset_reference_relpath.
    rewrite <- (asset_file_id env c (adopt_seed first c) vp (id_adopt_seed first c)).
    unfold asset_file, asset_folder. by destruct (params_truthy vp).
  - simpl. split; [done|].
    unfold asset_file, asset_folder. rewrite id_adopt_seed.
    by destruct (params_truthy vp).
Qed.

Lemma generate_character_image_succeeds env c vp w s response first rest url
    image_data :
  fst (determine_seed env c vp) = Some s ->
  fst (request_image env (create_prompt c vp) (Some s) w) = Ok response ->
  data response = first :: rest ->
  img_url first = Some url -> str_truthy url = true ->
  http_get env url = Ok image_data ->
  makedirs_ok env = true -> image_write_ok env = true ->
  exists w',
    generate_character_image env c vp w
    = (Ok (asset_reference env c vp,
           adopt_seed first (snd (determine_seed env c vp))), w') /\
    storage w' = storage w /\
    images w'
    = write_file (asset_file env c vp) image_data
        (makedirs (asset_folder c vp) (images w)).
Proof.
  intros Hs Hreq Hdata Hurl Htruthy Hget Hmk Hwr.
  rewrite generate_character_image_stages, Hs.
  destruct (request_image env (create_prompt c vp) (Some s) w) as [r w1] eqn:Hreq1.
  simpl in Hreq. subst r.
  destruct (download_and_save_succeeds env (snd (determine_seed env c vp)) vp
              response w1 first rest url image_data Hdata Hurl Htruthy Hget Hmk Hwr)
    as (w' & Hd & Hst & Himg).
  exists w'. unfold try_except. rewrite Hd.
  pose proof (request_image_frame _ _ _ _ _ _ Hreq1) as Hst1.
  pose proof (request_image_images _ _ _ _ _ _ Hreq1) as Himg1.
  split_and!.
  - unfold asset_reference. by rewrite id_determine_seed.
  - congruence.
  - rewrite Himg, Himg1. unfold asset_file, asset_folder.
    by rewrite id_determine_seed.
Qed.

Lemma asset_reference_truthy env c vp : str_truthy (asset_reference env c vp) = true.
Proof. reflexivity. Qed.

End SuccessFacts.



Section VariationSuccess.
Context `{HU : UuidLib} `{HP : !Pydantic}.

Lemma read_storage_same_file (w w1 : World) d :
  storage w1 = storage w ->
  _read_storage w = (Ok d, w) -> _read_storage w1 = (Ok d, w1).
Proof.
  intros Hst. unfold _read_storage. munfold. rewrite Hst.
  destruct (storage w); by intros [= <-].
Qed.

End VariationSuccess.

(** X11. For a stored character that has a seed and sits under its own
    identifier, when at least one attribute is passed, the backend stage
    returns a response with a URL, the download succeeds and the image tree
    and the storage file can be written, [create_character_variation]
    returns the character with exactly one variation appended, carrying the
    attributes passed and the reference of the image written under the
    character's [variations] folder, with [updated_at] refreshed, with
    [image_seed] replaced by the seed of the response when it has one, and
    with every other field as it was; [get_character] then returns that
    character, and the image is on disk. *)
Theorem create_character_variation_succeeds `{HU : UuidLib} `{HP : !Pydantic}
    (env : Env) (character_id : UUID) (p e s : option string) (w : World)
    (c : Character) (s0 : Z)
    (response : ImagesResponse) (first : Image) (rest : list Image)
    (url : string) (image_data : bytes) :
  get_character character_id w = (Ok (Some c), w) ->
  id c = character_id ->
  image_seed c = Some s0 ->
  PyDict.truthy (active_params [("pose", p); ("expression", e); ("setting", s)])
    = true ->
  fst (request_image env
         (create_prompt c
            (Some (active_params [("pose", p); ("expression", e); ("setting", s)])))
         (Some s0) w) = Ok response ->
  data response = first :: rest ->
  img_url first = Some url -> str_truthy url = true ->
  http_get env url = Ok image_data ->
  makedirs_ok env = true -> image_write_ok env = true ->
  storage_write_ok env = true ->
  exists c' w',
    create_character_variation env character_id p e s w = (Ok c', w') /\
    c' = {| description := description c; name := name c; id := id c;
            created_at := created_at c; updated_at := now_store env;
            base_image_path := base_image_path c;
            image_seed := Some (default s0 (img_seed first));
            variations :=
              variations c ++
              [{| image_path :=
                    asset_reference env c
                      (Some (active_params
                               [("pose", p); ("expression", e); ("setting", s)]));
                  pose := p; expression := e; setting := s;
                  generated_at := now_generated_at env |}] |} /\
    get_character character_id w' = (Ok (Some c'), w') /\
    PyDict.get
      (asset_file env c
         (Some (active_params [("pose", p); ("expression", e); ("setting", s)])))
      (files (images w')) = Some image_data.
Proof.
  intros Hget Hid Hseed Hact Hreq Hdata Hurl Htruthy Hhttp Hmk Hwr Hok.
  destruct (active_params_get p e s) as (Hp & He & Hs).
  set (active := active_params [("pose", p); ("expression", e); ("setting", s)]) in *.
  assert (Hvp : params_truthy (Some active) = true) by done.
  pose proof (determine_seed_variation env c (Some active) s0 Hvp Hseed) as Hds.
  destruct (generate_character_image_succeeds env c (Some active) w s0 response
              first rest url image_data
              ltac:(by rewrite Hds) Hreq Hdata Hurl Htruthy Hhttp Hmk Hwr)
    as (w1 & Hgen & Hst & Himg).
  rewrite Hds in Hgen. simpl in Hgen.
  pose proof Hget as Hget0.
  apply get_character_Some_read in Hget0 as (d & Hread & Hgetd).
  pose proof (read_storage_same_file w w1 d Hst Hread) as Hread1.
  set (v := {| image_path := asset_reference env c (Some active);
               pose := PyDict.get "pose" active;
               expression := PyDict.get "expression" active;
               setting := PyDict.get "setting" active;
               generated_at := now_generated_at env |}).
  assert (Hcont : PyDict.contains
                    (id (variations_append v (adopt_seed first c))) d = true).
  { apply (dict_contains_true _ c).
    replace (id (variations_append v (adopt_seed first c))) with character_id;
      [done|].
    rewrite <- Hid. unfold adopt_seed. by destruct (img_seed first). }
  destruct (update_character_read env (variations_append v (adopt_seed first c))
              w1 d Hread1 Hcont Hok) as (w' & Hupd & Hread' & Himg' & _).
  assert (Hc : set_updated_at (now_store env)
                 (variations_append v (adopt_seed first c))
          = {| description := description c; name := name c; id := id c;
               created_at := created_at c; updated_at := now_store env;
               base_image_path := base_image_path c;
               image_seed := Some (default s0 (img_seed first));
               variations :=
                 variations c ++
                 [{| image_path := asset_reference env c (Some active);
                     pose := p; expression := e; setting := s;
                     generated_at := now_generated_at env |}] |}).
  { unfold v, adopt_seed. rewrite Hp, He, Hs.
    destruct (img_seed first); unfold set_updated_at, variations_append,
      set_image_seed; simpl; by rewrite ?Hseed. }
  assert (Hres : create_character_variation env character_id p e s w
                 = (Ok (set_updated_at (now_store env)
                          (variations_append v (adopt_seed first c))), w')).
  { unfold create_character_variation. munfold. rewrite Hget.
    fold active. rewrite Hact. cbn [negb]. rewrite Hgen.
    rewrite asset_reference_truthy. cbn [negb]. fold v. by rewrite Hupd. }
  eexists _, w'. split; [exact Hres|]. split_and!; [exact Hc | |].
  - rewrite (get_character_read _ _ _ Hread').
    replace (id (variations_append v (adopt_seed first c))) with character_id.
    + by rewrite dict_get_set_eq.
    + rewrite <- Hid. unfold adopt_seed. by destruct (img_seed first).
  - rewrite Himg', Himg. simpl. apply dict_get_set_eq.
Qed.

Lemma create_character_variation_succeeds_witness :
  exists c' w',
    create_character_variation (Reference.env_with (Reference.seeded_backend None))
      Reference.fox_id (Some "sitting") None None Reference.fox_world = (Ok c', w') /\
    get_character Reference.fox_id w' = (Ok (Some c'), w') /\
    length (variations c') = 1%nat /\ image_seed c' = Some 42.
Proof.
  destruct (create_character_variation_succeeds
              (Reference.env_with (Reference.seeded_backend None))
              Reference.fox_id (Some "sitting") None None Reference.fox_world
              Reference.fox 42
              {| data := [ {| img_url := Some "https://images.example/fox.png";
                              img_seed := None |} ] |}
              {| img_url := Some "https://images.example/fox.png"; img_seed := None |}
              [] "https://images.example/fox.png" Reference.png
              eq_refl eq_refl eq_refl eq_refl eq_refl eq_refl eq_refl eq_refl
              eq_refl eq_refl eq_refl eq_refl)
    as (c' & w' & Hres & Hc & Hget & _).
  exists c', w'. split; [exact Hres|]. split; [exact Hget|].
  rewrite Hc. split; reflexivity.
Defined.

(** ** Further properties: the API key *)

(** X12. [get_api_key] lets a request through exactly when the server has
    a non-empty key and the header carries that very key, which it then
    returns; every other request is refused with 500 when no key is
    configured and with 401 otherwise. *)
Theorem get_api_key_spec (correct_api_key : string)
    (api_key_header : option string) :
  (forall k,
     get_api_key correct_api_key api_key_header = Ok k <->
     correct_api_key <> "" /\ api_key_header = Some correct_api_key /\
     k = correct_api_key)
  /\
  (forall e,
     get_api_key correct_api_key api_key_header = Raise e ->
     exists detail,
       e = HTTPException (if str_truthy correct_api_key then 401 else 500) detail).
Proof.
  unfold get_api_key. split.
  - intros k. split.
    + destruct (str_truthy correct_api_key) eqn:Hkey; simpl; [|done].
      destruct (opt_str_truthy api_key_header) eqn:Hhdr; simpl; [|done].
      destruct api_key_header as [hdr|]; [|done]. simpl.
      destruct (String.eqb hdr correct_api_key) eqn:Heq; simpl; [|done].
      apply String.eqb_eq in Heq. intros [= <-]. subst hdr.
      split; [|by split]. intros Hempty. by rewrite Hempty in Hkey.
    + intros (Hne & -> & ->).
      assert (Hkey : str_truthy correct_api_key = true)
        by by destruct correct_api_key.
      unfold opt_str_truthy, default. by rewrite Hkey, String.eqb_refl.
  - intros e.
    destruct (str_truthy correct_api_key); simpl; [|intros [= <-]; by eexists].
    destruct (opt_str_truthy api_key_header); simpl; [|intros [= <-]; by eexists].
    destruct (String.eqb _ correct_api_key); simpl; [done|].
    intros [= <-]. by eexists.
Qed.

Lemma get_api_key_spec_witness :
  get_api_key "default-secret-key-please-change"
    (Some "default-secret-key-please-change")
  = Ok "default-secret-key-please-change".
Proof.
  apply (proj1 (get_api_key_spec "default-secret-key-please-change"
                  (Some "default-secret-key-please-change"))).
  split_and!; [discriminate | reflexivity | reflexivity].
Defined.

(** ** Further properties: failures and clean-up *)

(** X13. A download that fails is not tried again and is fatal: when the
    backend stage has returned a URL and fetching it raises, whatever the
    exception, the generation fails with the generation failure after that
    single fetch, and the image tree is exactly as it was, no folder having
    been created. *)
Theorem download_failure_is_fatal `{HU : UuidLib} `{HP : !Pydantic}
    (env : Env) (c : Character) (vp : option (list (string * string)))
    (w w1 : World) (s : Z) (response : ImagesResponse) (first : Image)
    (rest : list Image) (url : string) (e : exn) :
  fst (determine_seed env c vp) = Some s ->
  request_image env (create_prompt c vp) (Some s) w = (Ok response, w1) ->
  data response = first :: rest ->
  img_url first = Some url -> str_truthy url = true ->
  http_get env url = Raise e ->
  generate_character_image env c vp w
  = (Raise GENERATION_FAILED, add_call (HttpGet url) w1) /\
  images (add_call (HttpGet url) w1) = images w /\
  storage (add_call (HttpGet url) w1) = storage w.
Proof.
  intros Hs Hreq Hdata Hurl Htruthy Hget.
  pose proof (request_image_images _ _ _ _ _ _ Hreq) as Himg.
  pose proof (request_image_frame _ _ _ _ _ _ Hreq) as Hst.
  split; [|by split].
  rewrite generate_character_image_stages, Hs, Hreq.
  unfold try_except, download_and_save, async_client_get. munfold.
  rewrite Hdata. simpl. rewrite Hurl. simpl. rewrite Htruthy. simpl.
  rewrite Hget. by destruct e.
Qed.

Lemma download_failure_is_fatal_witness :
  generate_character_image Reference.offline_env
    Reference.fox (Some [("pose", "sitting")]) Reference.fox_world
  = (Raise GENERATION_FAILED,
     add_call (HttpGet "https://images.example/fox.png")
       (add_call
          (ImagesGenerate
             (mk_request (create_prompt Reference.fox (Some [("pose", "sitting")]))
                (Some 42)))
          Reference.fox_world)).
Proof.
  exact (proj1 (download_failure_is_fatal Reference.offline_env Reference.fox
            (Some [("pose", "sitting")]) Reference.fox_world
            (add_call
               (ImagesGenerate
                  (mk_request
                     (create_prompt Reference.fox (Some [("pose", "sitting")]))
                     (Some 42)))
               Reference.fox_world)
            42
            {| data := [ {| img_url := Some "https://images.example/fox.png";
                            img_seed := None |} ] |}
            {| img_url := Some "https://images.example/fox.png"; img_seed := None |}
            [] "https://images.example/fox.png" RequestError
            eq_refl eq_refl eq_refl eq_refl eq_refl eq_refl)).
Defined.

Section CleanupFacts.
Context `{HU : UuidLib} `{HP : !Pydantic}.








Lemma dict_set_elem {K V} `{EqDecision K} (k : K) (v : V) (d : list (K * V)) :
  (k, v) ∈ PyDict.set k v d.
Proof.
  induction d as [|[k' v'] d IH]; simpl; [left|].
  destruct (decide (k = k')); [left | by right].
Qed.

(** The file exists once it has been written. *)
Lemma path_exists_write_file_self (f : path) (image_data : bytes) (fs : FS) :
  path_exists f (write_file f image_data fs) = true.
Proof.
  unfold path_exists, write_file; simpl. apply orb_true_iff. right.
  apply path_in_elem_of, list_elem_of_fmap. exists (f, image_data).
  split; [done | apply dict_set_elem].
Qed.

End CleanupFacts.

Section CreateThenRemove.
Context `{HU : UuidLib} `{HP : !Pydantic}.


End CreateThenRemove.



(** X15. When the image of a new character has been generated and written
    but the storage file cannot be written, [create_character] raises 500
    "Failed to save character data." and the image stays on disk without a
    record.  If it is [open] that failed, the storage file is as it was; if
    the write failed after the file was opened, the storage file has been
    emptied and is no longer JSON, so the records stored before are lost
    too. *)
Theorem create_character_unwritable_store `{HU : UuidLib} `{HP : !Pydantic}
    (env : Env) (character_data : CharacterCreate) (w : World)
    (response : ImagesResponse) (first : Image) (rest : list Image)
    (url : string) (image_data : bytes) :
  fst (request_image env (create_prompt (new_Character env character_data) None)
         (Some (randint env)) w) = Ok response ->
  data response = first :: rest ->
  img_url first = Some url -> str_truthy url = true ->
  http_get env url = Ok image_data ->
  makedirs_ok env = true -> image_write_ok env = true ->
  readable (storage w) = true -> storage_write_ok env = false ->
  exists w',
    create_character env character_data w
    = (Raise (HTTPException 500 "Failed to save character data."), w') /\
    storage w'
    = match storage_write_fault env with
      | OpenFails => storage w
      | WriteFails _ => FileNotJson
      end /\
    PyDict.get (asset_file env (new_Character env character_data) None)
      (files (images w')) = Some image_data /\
    path_exists (asset_file env (new_Character env character_data) None) (images w')
      = true.
Proof.
  intros Hreq Hdata Hurl Htruthy Hget Hmk Hwr Hreadable Hno.
  destruct (generate_character_image_succeeds env
              (new_Character env character_data) None w (randint env) response
              first rest url image_data eq_refl Hreq Hdata Hurl Htruthy Hget Hmk Hwr)
    as (w1 & Hgen & Hst & Himg).
  destruct (read_storage_readable w Hreadable) as [d Hread].
  pose proof (read_storage_same_file w w1 d Hst Hread) as Hread1.
  exists (after_failed_write (storage_write_fault env) w1).
  assert (Himg' : images (after_failed_write (storage_write_fault env) w1) = images w1).
  { unfold after_failed_write. by destruct (storage_write_fault env). }
  split_and!.
  - unfold create_character. munfold. rewrite Hgen.
    rewrite asset_reference_truthy. cbn [negb].
    unfold save_character. munfold. rewrite Hread1. simpl.
    by rewrite write_storage_fails.
  - unfold after_failed_write. by destruct (storage_write_fault env).
  - rewrite Himg', Himg. simpl. apply dict_get_set_eq.
  - rewrite Himg', Himg. apply path_exists_write_file_self.
Qed.

Lemma create_character_unwritable_store_witness :
  exists w',
    create_character Reference.truncating_env
      {| cc_description := "a grey owl"; cc_name := None |} Reference.fox_world
    = (Raise (HTTPException 500 "Failed to save character data."), w') /\
    storage w' = FileNotJson.
Proof.
  destruct (create_character_unwritable_store Reference.truncating_env
              {| cc_description := "a grey owl"; cc_name := None |}
              Reference.fox_world
              {| data := [ {| img_url := Some "https://images.example/fox.png";
                              img_seed := None |} ] |}
              {| img_url := Some "https://images.example/fox.png"; img_seed := None |}
              [] "https://images.example/fox.png" Reference.png
              eq_refl eq_refl eq_refl eq_refl eq_refl eq_refl eq_refl eq_refl eq_refl)
    as (w' & Hcreate & Hst & _).
  exists w'. by split.
Defined.

(** X16. A storage file that is not text, or that holds JSON other than an
    object, is not treated as an empty store: every store operation lets
    the exception of the read through ([UnicodeDecodeError], respectively
    [AttributeError]) and changes nothing, and so do the endpoints that
    start with a read. *)
Theorem unreadable_file_raises `{HU : UuidLib} `{HP : !Pydantic}
    (env : Env) (w : World) (c : Character) (character_id : UUID) (e : exn) :
  (storage w = FileUndecodable /\ e = UnicodeDecodeError) \/
  (storage w = FileJsonOther /\ e = AttributeError) ->
  get_character character_id w = (Raise e, w) /\
  get_all_characters w = (Raise e, w) /\
  save_character env c w = (Raise e, w) /\
  update_character env c w = (Raise e, w) /\
  delete_character env character_id w = (Raise e, w) /\
  read_character_by_id character_id w = (Raise e, w) /\
  remove_character env character_id w = (Raise e, w) /\
  (forall p s0 q, create_character_variation env character_id p s0 q w = (Raise e, w)).
Proof.
  intros Hfile.
  assert (Hread : _read_storage w = (Raise e, w)).
  { unfold _read_storage. munfold.
    by destruct Hfile as [[-> ->]|[-> ->]]. }
  unfold read_character_by_id, remove_character, create_character_variation.
  unfold get_character, get_all_characters, save_character, update_character,
    delete_character.
  munfold. rewrite Hread. by split_and!.
Qed.

Lemma unreadable_file_raises_witness :
  get_all_characters (set_storage FileJsonOther Reference.fox_world)
  = (Raise AttributeError, set_storage FileJsonOther Reference.fox_world).
Proof.
  exact (proj1 (proj2 (unreadable_file_raises
           (Reference.env_with Reference.unseeded_backend)
           (set_storage FileJsonOther Reference.fox_world)
           Reference.fox Reference.fox_id AttributeError
           (or_intror (conj eq_refl eq_refl))))).
Defined.
